(** * Singlish-to-Sinhala translation test harness: output extraction,
      verdict classification and the real-time update monitor.

    A shallow embedding of the Playwright test file of the repository
    ([getSinhalaOutput], [translateText], [runTest] and the [Pos_UI_0001]
    scenario).  JavaScript strings are sequences of UTF-16 code units, the
    browser page is an external collaborator answering each Playwright call,
    and every call the harness issues is recorded in a trace. *)

From Stdlib Require Import NArith Bool Lia String Ascii.
From Stdlib Require DecimalString.
From stdpp Require Import base decidable option list numbers.

Local Open Scope N_scope.

(** ** JavaScript strings *)

(** A JavaScript string is a sequence of UTF-16 code units. *)
Abbreviation jsstring := (list N).

(** An ASCII literal of the source as a JavaScript string. *)
Definition js (s : string) : jsstring :=
  map N_of_ascii (list_ascii_of_string s).

(** [s.length] *)
Definition js_length (s : jsstring) : nat := length s.

(** [a === b] on strings: the same sequence of code units. *)
Definition js_strict_eq (a b : jsstring) : bool := bool_decide (a = b).

(** ECMAScript WhiteSpace and LineTerminator code points: what
    [String.prototype.trim] strips and what the escape [\s] accepts. *)
Definition is_js_whitespace (c : N) : bool :=
  (c =? 0x0009) || (c =? 0x000A) || (c =? 0x000B) || (c =? 0x000C) ||
  (c =? 0x000D) || (c =? 0x0020) || (c =? 0x00A0) || (c =? 0x1680) ||
  ((0x2000 <=? c) && (c <=? 0x200A)) ||
  (c =? 0x2028) || (c =? 0x2029) || (c =? 0x202F) || (c =? 0x205F) ||
  (c =? 0x3000) || (c =? 0xFEFF).

Fixpoint drop_while (p : N -> bool) (s : jsstring) : jsstring :=
  match s with
  | [] => []
  | c :: rest => if p c then drop_while p rest else s
  end.

Fixpoint take_while (p : N -> bool) (s : jsstring) : jsstring :=
  match s with
  | [] => []
  | c :: rest => if p c then c :: take_while p rest else []
  end.

(** [s.trim()]: white space removed from both ends. *)
Definition js_trim (s : jsstring) : jsstring :=
  rev (drop_while is_js_whitespace (rev (drop_while is_js_whitespace s))).

(** [s.substring(0, n)] *)
Definition js_substring0 (n : nat) (s : jsstring) : jsstring := take n s.

(** ** Regular expressions of the source

    Both patterns of the source have the shape [/[...]+/]: one character
    class, repeated one or more times, no flags. *)

Inductive ClassItem :=
| CRange (lo hi : N)   (* a range  lo-hi  of code units *)
| CSpace.              (* the escape  \s  *)

Definition CharClass := list ClassItem.

Inductive Regex :=
| RClassPlus (cls : CharClass).

Definition item_accepts (it : ClassItem) (c : N) : bool :=
  match it with
  | CRange lo hi => (lo <=? c) && (c <=? hi)
  | CSpace => is_js_whitespace c
  end.

Definition class_accepts (cls : CharClass) (c : N) : bool :=
  existsb (fun it => item_accepts it c) cls.

Definition regex_class (re : Regex) : CharClass :=
  match re with RClassPlus cls => cls end.

(** [s.match(re)] for a pattern without the global flag: [None] is the
    [null] of a failed match, [Some m] is element 0 of the match array.  The
    match starts at the leftmost accepted code unit and, [+] being greedy,
    runs to the end of the run of accepted code units. *)
Definition js_match (re : Regex) (s : jsstring) : option jsstring :=
  let accepts := class_accepts (regex_class re) in
  match drop_while (fun c => negb (accepts c)) s with
  | [] => None
  | run => Some (take_while accepts run)
  end.

(** [/[඀-෿]+/], inside the text selector of tier 1. *)
Definition sinhala_class : CharClass := [CRange 0x0D80 0x0DFF].
Definition sinhala_regex : Regex := RClassPlus sinhala_class.

(** [/[඀-෿\s]+/], applied to the body text in tier 3. *)
Definition sinhala_space_class : CharClass := [CRange 0x0D80 0x0DFF; CSpace].
Definition sinhala_space_regex : Regex := RClassPlus sinhala_space_class.

(** ** The page session

    The browser page belongs to the environment.  Every Playwright call the
    harness awaits is recorded, in order, in a trace; the environment answers
    a call from the trace of the calls issued before it, so the page may
    change between two calls and any call may reject. *)

(** The selectors of the source: ['text=/re/'], ['tag'] and
    ['tag[attr="value"]']. *)
Inductive Selector :=
| SelText (re : Regex)
| SelTag (tag : string)
| SelTagAttr (tag attr value : string).

(** [page.locator(sel)], and element [i] of the array [locator.all()]
    resolves to, which is [page.locator(sel).nth(i)]. *)
Inductive Locator :=
| Loc (sel : Selector)
| LocNth (sel : Selector) (i : nat).

Inductive ConsoleLevel := Log | Warn.

Inductive Op :=
| OpGoto (url : string)                           (* page.goto(url) *)
| OpWaitForTimeout (ms : N)                       (* page.waitForTimeout(ms) *)
| OpAll (sel : Selector)                          (* page.locator(sel).all() *)
| OpTextContent (l : Locator)                     (* l.textContent() *)
| OpInputValue (l : Locator)                      (* l.inputValue() *)
| OpClear (l : Locator)                           (* l.clear() *)
| OpFill (l : Locator) (value : jsstring)         (* l.fill(value) *)
| OpType (l : Locator) (text : jsstring) (delay : N)  (* l.type(text, {delay}) *)
| OpScreenshot (path : jsstring) (fullPage : bool)    (* page.screenshot({path, fullPage}) *)
| OpConsole (lvl : ConsoleLevel) (args : list jsstring). (* console.log / console.warn *)

Abbreviation Trace := (list Op).

(** The outcome of an awaited call: a value, or a rejection (an exception at
    the [await]).  The source never inspects the exception it catches. *)
Inductive result (A : Type) :=
| Ok (a : A)
| Throw.
Arguments Ok {A} a.
Arguments Throw {A}.

(** The environment: what each kind of call resolves to after the calls in
    the trace given first. *)
Record Env := {
  env_count : Trace -> Selector -> result nat;
      (* how many elements [locator(sel).all()] resolves to *)
  env_textContent : Trace -> Locator -> result (option jsstring);
      (* [textContent()]: a string or null *)
  env_inputValue : Trace -> Locator -> result jsstring;
  env_action : Trace -> Op -> result unit
      (* goto, waitForTimeout, clear, fill, type, screenshot *)
}.

(** Computations of the harness: they read the environment and the trace so
    far, and yield an outcome together with the calls they issued. *)
Definition M (A : Type) : Type := Env -> Trace -> result A * Trace.

Definition run {A} (m : M A) (env : Env) (h : Trace) : result A * Trace :=
  m env h.

#[global] Instance M_ret : MRet M := fun A a _ _ => (Ok a, []).

#[global] Instance M_bind : MBind M := fun A B f m env h =>
  match m env h with
  | (Ok a, t1) => let '(r, t2) := f a env (h ++ t1) in (r, t1 ++ t2)
  | (Throw, t1) => (Throw, t1)
  end.

(** An exception raised by the script itself (a method call on [null] or
    [undefined]). *)
Definition throw {A} : M A := fun _ _ => (Throw, []).

(** [try { body } catch (e) {}] around a body that may [return v]:
    [Some v] when the body returned [v], [None] when control falls out of the
    statement, normally or through the empty handler. *)
Definition try_catch {A} (body : M (option A)) : M (option A) := fun env h =>
  match body env h with
  | (Ok r, t) => (Ok r, t)
  | (Throw, t) => (Ok None, t)
  end.

Definition locator_all (sel : Selector) : M (list Locator) := fun env h =>
  (match env_count env h sel with
   | Ok n => Ok (map (LocNth sel) (seq 0 n))
   | Throw => Throw
   end, [OpAll sel]).

Definition textContent (l : Locator) : M (option jsstring) := fun env h =>
  (env_textContent env h l, [OpTextContent l]).

Definition inputValue (l : Locator) : M jsstring := fun env h =>
  (env_inputValue env h l, [OpInputValue l]).

Definition action (op : Op) : M unit := fun env h =>
  (env_action env h op, [op]).

Definition console (lvl : ConsoleLevel) (args : list jsstring) : M unit :=
  fun _ _ => (Ok tt, [OpConsole lvl args]).

(** [arr[i].method()]: a TypeError when [arr[i]] is [undefined]. *)
Definition on_element {A B} (o : option A) (method : A -> M B) : M B :=
  match o with
  | Some x => method x
  | None => throw
  end.

(** ** The source *)

Definition WEBSITE_URL : string := "https://www.swifttranslator.com/".

Definition SELECTORS_inputField : Selector :=
  SelTagAttr "textarea" "placeholder" "Input Your Singlish Text Here.".

Definition waitForTranslation (timeout : N) : M unit :=
  action (OpWaitForTimeout timeout).

Definition waitForTranslation_default : N := 4000.

(** First [try] block of [getSinhalaOutput]. *)
Definition tier1 : M (option jsstring) :=
  elements ← locator_all (SelText sinhala_regex);
  if (0 <? length elements)%nat then
    t ← on_element (elements !! (length elements - 1)%nat) textContent;
    s ← on_element t (fun s => mret (js_trim s));
    mret (Some s)
  else mret None.

(** Second [try] block. *)
Definition tier2 : M (option jsstring) :=
  textareas ← locator_all (SelTag "textarea");
  if (1 <? length textareas)%nat then
    v ← on_element (textareas !! 1%nat) inputValue;
    mret (Some (js_trim v))
  else mret None.

(** Third [try] block. *)
Definition tier3 : M (option jsstring) :=
  bodyText ← textContent (Loc (SelTag "body"));
  match_ ← on_element bodyText (fun s => mret (js_match sinhala_space_regex s));
  match match_ with
  | Some m0 => mret (Some (js_trim m0))
  | None => mret None
  end.

Definition getSinhalaOutput : M jsstring :=
  r1 ← try_catch tier1;
  match r1 with
  | Some s => mret s
  | None =>
    r2 ← try_catch tier2;
    match r2 with
    | Some s => mret s
    | None =>
      r3 ← try_catch tier3;
      match r3 with
      | Some s => mret s
      | None => mret []
      end
    end
  end.

Definition translateText (input : jsstring) : M jsstring :=
  let inputField := Loc SELECTORS_inputField in
  action (OpClear inputField);;
  action (OpWaitForTimeout 500);;
  action (OpFill inputField input);;
  waitForTranslation waitForTranslation_default;;
  getSinhalaOutput.

(** *** Console text *)

(** A number inside a template literal, or as an argument of [console.log]:
    its decimal digits. *)
Definition js_of_nat (n : nat) : jsstring :=
  js (DecimalString.NilEmpty.string_of_uint (Nat.to_uint n)).

Definition LF : jsstring := [0x000A].          (* \n *)
Definition QUOTE : jsstring := [0x0022].       (* the double quote *)
Definition CHECK_MARK : jsstring := [0x2713].  (* the check mark *)
Definition BALLOT_X : jsstring := [0x2717].    (* the ballot cross *)
Definition WARNING_SIGN : jsstring := [0x26A0; 0xFE0F].

Definition PASS : jsstring := js "PASS " ++ CHECK_MARK.
Definition PASS_correctly_fails : jsstring :=
  js "PASS " ++ CHECK_MARK ++ js " (correctly fails)".
Definition FAIL : jsstring := js "FAIL " ++ BALLOT_X.
Definition YES_mark : jsstring := js "YES " ++ CHECK_MARK.
Definition NO_mark : jsstring := js "NO " ++ BALLOT_X.

(** [s.length > 50 ? s.substring(0, 50) + '...' : s] *)
Definition truncate50 (s : jsstring) : jsstring :=
  if (50 <? js_length s)%nat then js_substring0 50 s ++ js "..." else s.

(** [s.replace(/[:\/]/g, '_')]: every code unit of the class is replaced. *)
Definition path_separators : CharClass := [CRange 0x003A 0x003A; CRange 0x002F 0x002F].

Definition js_replace_class (cls : CharClass) (by_ : jsstring) (s : jsstring)
  : jsstring :=
  flat_map (fun c => if class_accepts cls c then by_ else [c]) s.

(** *** runTest *)

(** Lines 58 to 72 of [runTest]: the comparison and the verdict it prints. *)
Definition runTest_verdict (testId input expectedOutput : jsstring)
    (isNegative : bool) (actualOutput : jsstring) : M unit :=
  let matches := js_strict_eq actualOutput expectedOutput in
  console Log [LF ++ testId ++ js ":"];;
  console Log [js "  Input:"; truncate50 input];;
  console Log [js "  Expected:"; truncate50 expectedOutput];;
  console Log [js "  Actual:"; truncate50 actualOutput];;
  if isNegative then
    console Log [js "  Status:";
                 if negb matches then PASS_correctly_fails else FAIL];;
    console Log [js "  " ++ WARNING_SIGN ++ js "  Negative test - failure expected"]
  else
    console Log [js "  Match:"; if matches then js "YES" else js "NO"];;
    console Log [js "  Status:"; if matches then PASS else FAIL];;
    if negb matches
    then console Warn [js "  " ++ WARNING_SIGN ++ js "  Output mismatch"]
    else mret tt.

Definition runTest (testId input expectedOutput : jsstring)
    (isNegative : bool) : M jsstring :=
  console Log [LF ++ testId ++ js ": Opening new browser..."];;
  action (OpGoto WEBSITE_URL);;
  console Log [LF ++ testId ++ js ": Starting test..."];;
  actualOutput ← translateText input;
  runTest_verdict testId input expectedOutput isNegative actualOutput;;
  action (OpScreenshot
            (js "test-results/" ++ js_replace_class path_separators (js "_") testId
               ++ js ".png")
            false);;
  mret actualOutput.

(** [test('Pos_Fun_0001: Convert simple daily sentence', ...)] *)
Definition Pos_Fun_0001_expected : jsstring :=
  [0x0DB8; 0x0DB8; 0x0020; 0x0D9C; 0x0DD9; 0x0DAF; 0x0DBB; 0x0020;
   0x0DBA; 0x0DB1; 0x0DC0; 0x0DCF; 0x002E].

Definition Pos_Fun_0001 : M jsstring :=
  runTest (js "Pos_Fun_0001") (js "mama gedhara yanavaa.")
    Pos_Fun_0001_expected false.

(** [test('Neg_Fun_0001: Handle empty input', ...)] *)
Definition Neg_Fun_0001_expected : jsstring :=
  js "No meaningful Sinhala output expected".

Definition Neg_Fun_0001 : M jsstring :=
  runTest (js "Neg_Fun_0001") [] Neg_Fun_0001_expected true.

(** *** The UI scenario Pos_UI_0001 *)

(** [outputUpdates] and [previousOutput], the two variables of the loop. *)
Record MonitorState := {
  outputUpdates : nat;
  previousOutput : jsstring
}.

(** The body of the [for] loop at index [i], where [c] is [testInput[i]].
    It yields the variables after the iteration, and the output it sampled. *)
Definition typing_iteration (c : N) (i : nat) (st : MonitorState)
  : M (MonitorState * jsstring) :=
  action (OpType (Loc SELECTORS_inputField) [c] 200);;
  action (OpWaitForTimeout 500);;
  currentOutput ← getSinhalaOutput;
  if negb (js_strict_eq currentOutput (previousOutput st))
     && (0 <? js_length currentOutput)%nat
  then
    console Log [js "  Step " ++ js_of_nat (i + 1) ++ js ": "
                   ++ QUOTE ++ currentOutput ++ QUOTE];;
    mret ({| outputUpdates := S (outputUpdates st);
             previousOutput := currentOutput |}, currentOutput)
  else mret (st, currentOutput).

(** [for (let i = 0; i < testInput.length; i++) { ... }], entered at index
    [i] with [chars] the code units of [testInput] from [i] on. *)
Fixpoint typing_loop (chars : jsstring) (i : nat) (st : MonitorState)
  : M MonitorState :=
  match chars with
  | [] => mret st
  | c :: rest =>
      r ← typing_iteration c i st;
      typing_loop rest (S i) (fst r)
  end.

(** Lines 389 to 404: the results and the verdict of the scenario. *)
Definition Pos_UI_0001_results (expectedOutput : jsstring)
    (outputUpdates : nat) (finalOutput : jsstring) : M unit :=
  console Log [LF ++ js "Pos_UI_0001: Results:"];;
  console Log [js "  Expected:"; expectedOutput];;
  console Log [js "  Final Output:"; finalOutput];;
  console Log [js "  Output Updates Detected:"; js_of_nat outputUpdates];;
  console Log [js "  Real-time Updates:";
               if (0 <? outputUpdates)%nat then YES_mark else NO_mark];;
  console Log [js "  Final Match:";
               if js_strict_eq finalOutput expectedOutput then YES_mark else NO_mark];;
  let testPassed :=
    (0 <? outputUpdates)%nat && js_strict_eq finalOutput expectedOutput in
  console Log [js "  Status:"; if testPassed then PASS else FAIL];;
  (if negb testPassed && (outputUpdates =? 0)%nat
   then console Warn [js "  " ++ WARNING_SIGN ++ js "  No real-time updates detected"]
   else mret tt);;
  (if negb testPassed && negb (js_strict_eq finalOutput expectedOutput)
   then console Warn [js "  " ++ WARNING_SIGN ++ js "  Final output mismatch"]
   else mret tt).

Definition Pos_UI_0001_testInput : jsstring := js "supun gedhara yanavaa".

Definition Pos_UI_0001_expectedOutput : jsstring :=
  [0x0DC3; 0x0DD4; 0x0DB4; 0x0DD4; 0x0DB1; 0x0DCA; 0x0020;
   0x0D9C; 0x0DD9; 0x0DAF; 0x0DBB; 0x0020;
   0x0DBA; 0x0DB1; 0x0DC0; 0x0DCF].

Definition Pos_UI_0001 : M unit :=
  action (OpGoto WEBSITE_URL);;
  console Log [LF ++ js "Pos_UI_0001: Starting UI test for real-time updates..."];;
  let inputField := Loc SELECTORS_inputField in
  action (OpClear inputField);;
  action (OpWaitForTimeout 500);;
  let testInput := Pos_UI_0001_testInput in
  let expectedOutput := Pos_UI_0001_expectedOutput in
  console Log [LF ++ js "Pos_UI_0001: Testing real-time translation..."];;
  console Log [js "  Input:"; testInput];;
  st ← typing_loop testInput 0
         {| outputUpdates := 0; previousOutput := [] |};
  waitForTranslation 2000;;
  finalOutput ← getSinhalaOutput;
  action (OpScreenshot (js "test-results/Pos_UI_0001_final.png") true);;
  Pos_UI_0001_results expectedOutput (outputUpdates st) finalOutput;;
  action (OpWaitForTimeout 3000).

(** The calls [Pos_UI_0001] issues before it enters the loop. *)
Definition Pos_UI_0001_prelude : Trace :=
  [OpGoto WEBSITE_URL;
   OpConsole Log [LF ++ js "Pos_UI_0001: Starting UI test for real-time updates..."];
   OpClear (Loc SELECTORS_inputField);
   OpWaitForTimeout 500;
   OpConsole Log [LF ++ js "Pos_UI_0001: Testing real-time translation..."];
   OpConsole Log [js "  Input:"; Pos_UI_0001_testInput]].

(** ** Observations on a trace *)

(** The value printed after the label ["  Status:"] by a [console.log]. *)
Definition status_of (op : Op) : option jsstring :=
  match op with
  | OpConsole Log [label; v] =>
      if js_strict_eq label (js "  Status:") then Some v else None
  | _ => None
  end.

Definition status_lines (t : Trace) : list jsstring := omap status_of t.

Definition says_PASS (v : jsstring) : bool :=
  js_strict_eq (take 4 v) (js "PASS").

(** The verdict a run printed: [Some true] for one status line saying PASS,
    [Some false] for one saying anything else, [None] when the run printed
    no status line (or several). *)
Definition verdict_passed (t : Trace) : option bool :=
  match status_lines t with
  | [v] => Some (says_PASS v)
  | _ => None
  end.

(** The selectors of tiers 1 and 2 and the locator of tier 3. *)
Definition sel1 : Selector := SelText sinhala_regex.
Definition sel2 : Selector := SelTag "textarea".
Definition body_loc : Locator := Loc (SelTag "body").

(** The calls by which the second and the third tier of the extractor start:
    a tier was attempted in a run exactly when its call is in the trace. *)
Definition tier2_call : Op := OpAll sel2.
Definition tier3_call : Op := OpTextContent body_loc.

(** A tier finds nothing when it falls through or raises. *)
Definition finds_nothing (r : result (option jsstring)) : Prop :=
  r = Ok None \/ r = Throw.

(** What a tier found: the value it returned, if it returned one. *)
Definition found (r : result (option jsstring)) : option jsstring :=
  match r with Ok (Some s) => Some s | _ => None end.

Definition is_sinhala (c : N) : bool := (0x0D80 <=? c) && (c <=? 0x0DFF).

(** A text in which a white space code unit comes before the first code
    unit of the Sinhala range. *)
Definition whitespace_before_first_sinhala (body : jsstring) : Prop :=
  exists pre w mid s post,
    body = pre ++ w :: mid ++ s :: post /\
    is_js_whitespace w = true /\
    is_sinhala s = true /\
    Forall (fun c => is_sinhala c = false) (pre ++ w :: mid).

(** ** The loop of the UI scenario, with the sampled outputs kept *)

(** The same iterations as [typing_loop]; the result also lists the output
    sampled by each iteration, in order. *)
Fixpoint typing_loop_samples (chars : jsstring) (i : nat) (st : MonitorState)
  : M (MonitorState * list jsstring) :=
  match chars with
  | [] => mret (st, [])
  | c :: rest =>
      r ← typing_iteration c i st;
      r' ← typing_loop_samples rest (S i) (fst r);
      mret (fst r', snd r :: snd r')
  end.

(** The counting rule in the words of the specification: when the newly
    sampled output differs from [previousOutput] and is non-empty, increment
    the count and set [previousOutput] to the new value. *)
Definition spec_count_step (st : MonitorState) (sample : jsstring)
  : MonitorState :=
  if decide (sample <> previousOutput st /\ sample <> [])
  then {| outputUpdates := outputUpdates st + 1; previousOutput := sample |}
  else st.

Definition monitor_init : MonitorState :=
  {| outputUpdates := 0; previousOutput := [] |}.

Definition spec_monitor (samples : list jsstring) : MonitorState :=
  foldl spec_count_step monitor_init samples.

(** ** Concrete pages *)

(** A page whose every call rejects. *)
Definition env_dead : Env := {|
  env_count := fun _ _ => Throw;
  env_textContent := fun _ _ => Throw;
  env_inputValue := fun _ _ => Throw;
  env_action := fun _ _ => Throw
|}.

(** A page that does not change: [texts] are the text contents of the
    elements the text selector locates, in document order, [areas] the
    values of the textareas, [body] the text content of the body. *)
Definition env_static (texts areas : list jsstring) (body : option jsstring)
  : Env := {|
  env_count := fun _ sel =>
    match sel with
    | SelText _ => Ok (length texts)
    | SelTag tag => if String.eqb tag "textarea"
                    then Ok (length areas) else Ok 1%nat
    | SelTagAttr _ _ _ => Ok 1%nat
    end;
  env_textContent := fun _ l =>
    match l with
    | LocNth (SelText _) i =>
        match texts !! i with Some s => Ok (Some s) | None => Throw end
    | Loc (SelTag _) => Ok body
    | _ => Throw
    end;
  env_inputValue := fun _ l =>
    match l with
    | LocNth (SelTag _) i =>
        match areas !! i with Some v => Ok v | None => Throw end
    | _ => Throw
    end;
  env_action := fun _ _ => Ok tt
|}.

(** How many keys have been typed so far. *)
Fixpoint keys_typed (h : Trace) : nat :=
  match h with
  | [] => 0
  | OpType _ _ _ :: h' => S (keys_typed h')
  | _ :: h' => keys_typed h'
  end.

(** A page showing one element of text, which after the [k]-th key reads
    [outs !! (k - 1)] (and the empty string past the end of [outs]). *)
Definition env_scripted (outs : list jsstring) : Env := {|
  env_count := fun _ sel =>
    match sel with SelText _ => Ok 1%nat | _ => Ok 0%nat end;
  env_textContent := fun h _ =>
    Ok (Some (default [] (outs !! (keys_typed h - 1)%nat)));
  env_inputValue := fun _ _ => Throw;
  env_action := fun _ _ => Ok tt
|}.

Definition a_ish : jsstring := js "a-ish".
Definition ab_ish : jsstring := js "ab-ish".

(** ** The run reporter

    The hooks [afterEach] and [afterAll] of the suite share the array
    [testResults].  The duration of a test is a JavaScript number the hooks
    store and never read; the text of [((x / total) * 100).toFixed(1)] is
    floating-point formatting.  Both are left open here. *)

Section Reporter.

Variable JsNumber : Type.
Variable percentage : nat -> nat -> jsstring.

(** The fields of [testInfo] the hook reads. *)
Record TestInfo := {
  testInfo_title : jsstring;
  testInfo_status : jsstring;
  testInfo_duration : JsNumber
}.

(** An element of [testResults]. *)
Record TestResult := {
  testId : jsstring;
  status : jsstring;
  duration : JsNumber;
  timestamp : jsstring
}.

(** [test.afterEach]: the array after the [push], and the wait that
    follows it.  [now] is [new Date().toISOString()]. *)
Definition afterEach (testInfo : TestInfo) (now : jsstring)
    (testResults : list TestResult) : list TestResult * M unit :=
  let result := {| testId := testInfo_title testInfo;
                   status := testInfo_status testInfo;
                   duration := testInfo_duration testInfo;
                   timestamp := now |} in
  (testResults ++ [result], action (OpWaitForTimeout 1000)).

(** [arr.forEach(f)] *)
Fixpoint forEach {A : Type} (f : A -> M unit) (arr : list A) : M unit :=
  match arr with
  | [] => mret tt
  | x :: rest => f x;; forEach f rest
  end.

(** [s.repeat(n)] *)
Fixpoint js_repeat (s : jsstring) (n : nat) : jsstring :=
  match n with
  | O => []
  | S n' => s ++ js_repeat s n'
  end.

(** [test.afterAll] *)
Definition afterAll (testResults : list TestResult) : M unit :=
  console Log [LF ++ js_repeat (js "=") 60];;
  console Log [js "TEST SUMMARY REPORT"];;
  console Log [js_repeat (js "=") 60];;
  let passed :=
    length (List.filter (fun r => js_strict_eq (status r) (js "passed"))
              testResults) in
  let failed :=
    length (List.filter (fun r => js_strict_eq (status r) (js "failed"))
              testResults) in
  let total := length testResults in
  console Log [LF ++ js "Total Tests: " ++ js_of_nat total];;
  console Log [js "Passed: " ++ js_of_nat passed ++ js " ("
                 ++ percentage passed total ++ js "%)"];;
  console Log [js "Failed: " ++ js_of_nat failed ++ js " ("
                 ++ percentage failed total ++ js "%)"];;
  (if (0 <? failed)%nat then
     console Log [LF ++ js "Failed Tests:"];;
     forEach (fun r => console Log [js "  - " ++ testId r])
       (List.filter (fun r => js_strict_eq (status r) (js "failed"))
          testResults)
   else mret tt);;
  console Log [LF ++ js_repeat (js "=") 60].

(** The array after the hook has run for each test of [tests], from the
    empty array; a test comes with the time at which its hook ran. *)
Definition collect (tests : list (TestInfo * jsstring)) : list TestResult :=
  foldl (fun testResults t => fst (afterEach (fst t) (snd t) testResults))
    [] tests.

(** The test ids [afterAll] lists under "Failed Tests:". *)
Definition listed_failure (op : Op) : option jsstring :=
  match op with
  | OpConsole Log [line] =>
      if js_strict_eq (take 4 line) (js "  - ") then Some (drop 4 line)
      else None
  | _ => None
  end.

Definition listed_failures (t : Trace) : list jsstring :=
  omap listed_failure t.

End Reporter.

Arguments testInfo_title {JsNumber} _.
Arguments testInfo_status {JsNumber} _.
Arguments testInfo_duration {JsNumber} _.
Arguments testId {JsNumber} _.
Arguments status {JsNumber} _.
Arguments duration {JsNumber} _.
Arguments timestamp {JsNumber} _.
Arguments afterEach {JsNumber} testInfo now testResults.
Arguments afterAll {JsNumber} percentage testResults.
Arguments collect {JsNumber} tests.

(** ** Further observations on a trace *)

(** The calls that only read the page. *)
Definition is_query (op : Op) : bool :=
  match op with
  | OpAll _ | OpTextContent _ | OpInputValue _ => true
  | _ => false
  end.

(** The keys sent to the page, in order: where, what, and with what delay. *)
Definition key_of (op : Op) : option (Locator * jsstring * N) :=
  match op with
  | OpType l text delay => Some (l, text, delay)
  | _ => None
  end.

Definition keys_sent (t : Trace) : list (Locator * jsstring * N) :=
  omap key_of t.

(** The four actions of [translateText], in order. *)
Definition translate_actions (input : jsstring) : Trace :=
  [OpClear (Loc SELECTORS_inputField); OpWaitForTimeout 500;
   OpFill (Loc SELECTORS_inputField) input; OpWaitForTimeout 4000].

(** The file [runTest] saves its screenshot to. *)
Definition screenshot_path (testId : jsstring) : jsstring :=
  js "test-results/" ++ js_replace_class path_separators (js "_") testId
    ++ js ".png".

Definition is_path_separator (c : N) : bool := (c =? 0x003A) || (c =? 0x002F).

(** The samples that are not empty, in order. *)
Definition nonempty_samples (samples : list jsstring) : list jsstring :=
  List.filter (fun s => (0 <? js_length s)%nat) samples.

(** A run that threw after the trace [h]: the last call it issued is a page
    action, and that action rejected. *)
Definition threw_at_action (env : Env) (h t : Trace) : Prop :=
  exists before op,
    t = before ++ [op] /\ env_action env (h ++ before) op = Throw.

(** The screenshots a run took: the path and the [fullPage] option of
    each. *)
Definition screenshot_of (op : Op) : option (jsstring * bool) :=
  match op with
  | OpScreenshot path fullPage => Some (path, fullPage)
  | _ => None
  end.

Definition screenshots (t : Trace) : list (jsstring * bool) :=
  omap screenshot_of t.

(** The status line [runTest] prints for an actual output. *)
Definition runTest_status_line (expectedOutput : jsstring) (isNegative : bool)
    (actualOutput : jsstring) : jsstring :=
  if isNegative
  then (if negb (js_strict_eq actualOutput expectedOutput)
        then PASS_correctly_fails else FAIL)
  else (if js_strict_eq actualOutput expectedOutput then PASS else FAIL).

(** One key of the loop, as it is sent. *)
Definition the_key (c : N) : Locator * jsstring * N :=
  (Loc SELECTORS_inputField, [c], 200).

(** The warnings a run printed: the arguments of each [console.warn]. *)
Definition warning_of (op : Op) : option (list jsstring) :=
  match op with
  | OpConsole Warn args => Some args
  | _ => None
  end.

Definition warnings (t : Trace) : list (list jsstring) := omap warning_of t.

(** The calls that only print. *)
Definition is_console (op : Op) : bool :=
  match op with OpConsole _ _ => true | _ => false end.

(** ** The test cases of the suite

    Each [test(title, ...)] of the suite that calls [runTest], in the order
    of the source: its title, and the arguments of the call. *)

Record TestCase := {
  tc_title : jsstring;
  tc_testId : jsstring;
  tc_input : jsstring;
  tc_expectedOutput : jsstring;
  tc_isNegative : bool
}.

(** The body of such a test. *)
Definition test_body (tc : TestCase) : M jsstring :=
  runTest (tc_testId tc) (tc_input tc) (tc_expectedOutput tc)
    (tc_isNegative tc).

Definition suite : list TestCase := [
  (* line 128 *)
  {| tc_title := js "Pos_Fun_0001: Convert simple daily sentence";
     tc_testId := js "Pos_Fun_0001";
     tc_input := js "mama gedhara yanavaa.";
     tc_expectedOutput :=
       [0x0DB8; 0x0DB8; 0x0020; 0x0D9C; 0x0DD9; 0x0DAF; 0x0DBB; 0x0020;
        0x0DBA; 0x0DB1; 0x0DC0; 0x0DCF; 0x002E];
     tc_isNegative := false |};
  (* line 134 *)
  {| tc_title := js "Pos_Fun_0002: Convert interrogative greeting";
     tc_testId := js "Pos_Fun_0002";
     tc_input := js "oyaata kohomadha?";
     tc_expectedOutput :=
       [0x0D94; 0x0DBA; 0x0DCF; 0x0DA7; 0x0020; 0x0D9A; 0x0DDC; 0x0DC4;
        0x0DDC; 0x0DB8; 0x0DAF; 0x003F];
     tc_isNegative := false |};
  (* line 140 *)
  {| tc_title := js "Pos_Fun_0003: Convert polite request";
     tc_testId := js "Pos_Fun_0003";
     tc_input := js "machan karuNaakaralaa mata udhavvak karanna puLuvandha?";
     tc_expectedOutput :=
       [0x0DB8; 0x0DA0; 0x0DB1; 0x0DCA; 0x0020; 0x0D9A; 0x0DBB; 0x0DD4;
        0x0DAB; 0x0DCF; 0x0D9A; 0x0DBB; 0x0DBD; 0x0DCF; 0x0020;
        0x0DB8; 0x0DA7; 0x0020; 0x0D8B; 0x0DAF; 0x0DC0; 0x0DCA;
        0x0DC0; 0x0D9A; 0x0DCA; 0x0020; 0x0D9A; 0x0DBB; 0x0DB1;
        0x0DCA; 0x0DB1; 0x0020; 0x0DB4; 0x0DD4; 0x0DC5; 0x0DD4;
        0x0DC0; 0x0DB1; 0x0DCA; 0x0DAF; 0x003F];
     tc_isNegative := false |};
  (* line 146 *)
  {| tc_title := js "Pos_Fun_0004: Convert imperative command";
     tc_testId := js "Pos_Fun_0004";
     tc_input := js "vahaama enna.";
     tc_expectedOutput :=
       [0x0DC0; 0x0DC4; 0x0DCF; 0x0DB8; 0x0020; 0x0D91; 0x0DB1; 0x0DCA;
        0x0DB1; 0x002E];
     tc_isNegative := false |};
  (* line 152 *)
  {| tc_title := js "Pos_Fun_0005: Convert negative sentence";
     tc_testId := js "Pos_Fun_0005";
     tc_input := js "mama ehema karanne naehae.";
     tc_expectedOutput :=
       [0x0DB8; 0x0DB8; 0x0020; 0x0D91; 0x0DC4; 0x0DD9; 0x0DB8; 0x0020;
        0x0D9A; 0x0DBB; 0x0DB1; 0x0DCA; 0x0DB1; 0x0DDA; 0x0020;
        0x0DB1; 0x0DD0; 0x0DC4; 0x0DD0; 0x002E];
     tc_isNegative := false |};
  (* line 158 *)
  {| tc_title := js "Pos_Fun_0006: Convert greeting ayubowan";
     tc_testId := js "Pos_Fun_0006";
     tc_input := js "aayuboovan!";
     tc_expectedOutput :=
       [0x0D86; 0x0DBA; 0x0DD4; 0x0DB6; 0x0DDD; 0x0DC0; 0x0DB1; 0x0DCA;
        0x0021];
     tc_isNegative := false |};
  (* line 164 *)
  {| tc_title := js "Pos_Fun_0007: Convert compound sentence";
     tc_testId := js "Pos_Fun_0007";
     tc_input := js "api kaeema kanna yanavaa saha passe chithrapatayak balanavaa.";
     tc_expectedOutput :=
       [0x0D85; 0x0DB4; 0x0DD2; 0x0020; 0x0D9A; 0x0DD1; 0x0DB8; 0x0020;
        0x0D9A; 0x0DB1; 0x0DCA; 0x0DB1; 0x0020; 0x0DBA; 0x0DB1;
        0x0DC0; 0x0DCF; 0x0020; 0x0DC3; 0x0DC4; 0x0020; 0x0DB4;
        0x0DC3; 0x0DCA; 0x0DC3; 0x0DDA; 0x0020; 0x0DA0; 0x0DD2;
        0x0DAD; 0x0DCA; 0x200D; 0x0DBB; 0x0DB4; 0x0DA7; 0x0DBA;
        0x0D9A; 0x0DCA; 0x0020; 0x0DB6; 0x0DBD; 0x0DB1; 0x0DC0;
        0x0DCF; 0x002E];
     tc_isNegative := false |};
  (* line 170 *)
  {| tc_title := js "Pos_Fun_0008: Convert past tense sentence";
     tc_testId := js "Pos_Fun_0008";
     tc_input := js "mama iiyee gedhara giyaa.";
     tc_expectedOutput :=
       [0x0DB8; 0x0DB8; 0x0020; 0x0D89; 0x0DBA; 0x0DDA; 0x0020; 0x0D9C;
        0x0DD9; 0x0DAF; 0x0DBB; 0x0020; 0x0D9C; 0x0DD2; 0x0DBA;
        0x0DCF; 0x002E];
     tc_isNegative := false |};
  (* line 176 *)
  {| tc_title := js "Pos_Fun_0009: Convert present tense sentence";
     tc_testId := js "Pos_Fun_0009";
     tc_input := js "mama dhaen vaeda karanavaa.";
     tc_expectedOutput :=
       [0x0DB8; 0x0DB8; 0x0020; 0x0DAF; 0x0DD0; 0x0DB1; 0x0DCA; 0x0020;
        0x0DC0; 0x0DD0; 0x0DA9; 0x0020; 0x0D9A; 0x0DBB; 0x0DB1;
        0x0DC0; 0x0DCF; 0x002E];
     tc_isNegative := false |};
  (* line 182 *)
  {| tc_title := js "Pos_Fun_0010: Convert future tense sentence";
     tc_testId := js "Pos_Fun_0010";
     tc_input := js "mama heta enavaa.";
     tc_expectedOutput :=
       [0x0DB8; 0x0DB8; 0x0020; 0x0DC4; 0x0DD9; 0x0DA7; 0x0020; 0x0D91;
        0x0DB1; 0x0DC0; 0x0DCF; 0x002E];
     tc_isNegative := false |};
  (* line 188 *)
  {| tc_title := js "Pos_Fun_0011: Convert plural pronoun";
     tc_testId := js "Pos_Fun_0011";
     tc_input := js "api yamu.";
     tc_expectedOutput :=
       [0x0D85; 0x0DB4; 0x0DD2; 0x0020; 0x0DBA; 0x0DB8; 0x0DD4; 0x002E];
     tc_isNegative := false |};
  (* line 194 *)
  {| tc_title := js "Pos_Fun_0012: Convert pronoun variation";
     tc_testId := js "Pos_Fun_0012";
     tc_input := js "eyaala enavadha?";
     tc_expectedOutput :=
       [0x0D91; 0x0DBA; 0x0DCF; 0x0DBD; 0x0020; 0x0D91; 0x0DB1; 0x0DC0;
        0x0DAF; 0x003F];
     tc_isNegative := false |};
  (* line 200 *)
  {| tc_title := js "Pos_Fun_0013: Convert repeated words";
     tc_testId := js "Pos_Fun_0013";
     tc_input := js "ela ela";
     tc_expectedOutput :=
       [0x0D91; 0x0DBD; 0x0020; 0x0D91; 0x0DBD];
     tc_isNegative := false |};
  (* line 206 *)
  {| tc_title := js "Pos_Fun_0014: Convert phrase pattern";
     tc_testId := js "Pos_Fun_0014";
     tc_input := js "mata oona";
     tc_expectedOutput :=
       [0x0DB8; 0x0DA7; 0x0020; 0x0D95; 0x0DB1];
     tc_isNegative := false |};
  (* line 212 *)
  {| tc_title := js "Pos_Fun_0015: Convert joined words";
     tc_testId := js "Pos_Fun_0015";
     tc_input := js "yaaLuvagedharayanavaa";
     tc_expectedOutput :=
       [0x0DBA; 0x0DCF; 0x0DC5; 0x0DD4; 0x0DC0; 0x0D9C; 0x0DD9; 0x0DAF;
        0x0DBB; 0x0DBA; 0x0DB1; 0x0DC0; 0x0DCF];
     tc_isNegative := false |};
  (* line 218 *)
  {| tc_title := js "Pos_Fun_0016: Convert mixed English term";
     tc_testId := js "Pos_Fun_0016";
     tc_input := js "Zoom meeting ekak thiyennee.";
     tc_expectedOutput :=
       [0x005A; 0x006F; 0x006F; 0x006D; 0x0020; 0x006D; 0x0065; 0x0065;
        0x0074; 0x0069; 0x006E; 0x0067; 0x0020; 0x0D91; 0x0D9A;
        0x0D9A; 0x0DCA; 0x0020; 0x0DAD; 0x0DD2; 0x0DBA; 0x0DD9;
        0x0DB1; 0x0DCA; 0x0DB1; 0x0DDA; 0x002E];
     tc_isNegative := false |};
  (* line 224 *)
  {| tc_title := js "Pos_Fun_0017: Convert mixed English term with multiple words";
     tc_testId := js "Pos_Fun_0017";
     tc_input := js "Documents tika attach karalaa mata email ekak evanna.";
     tc_expectedOutput :=
       [0x0044; 0x006F; 0x0063; 0x0075; 0x006D; 0x0065; 0x006E; 0x0074;
        0x0073; 0x0020; 0x0DA7; 0x0DD2; 0x0D9A; 0x0020; 0x0061;
        0x0074; 0x0074; 0x0061; 0x0063; 0x0068; 0x0020; 0x0D9A;
        0x0DBB; 0x0DBD; 0x0DCF; 0x0020; 0x0DB8; 0x0DA7; 0x0020;
        0x0065; 0x006D; 0x0061; 0x0069; 0x006C; 0x0020; 0x0D91;
        0x0D9A; 0x0D9A; 0x0DCA; 0x0020; 0x0D91; 0x0DC0; 0x0DB1;
        0x0DCA; 0x0DB1; 0x002E];
     tc_isNegative := false |};
  (* line 230 *)
  {| tc_title := js "Pos_Fun_0018: Convert currency format";
     tc_testId := js "Pos_Fun_0018";
     tc_input := js "Rs. 9875";
     tc_expectedOutput := js "Rs. 9875";
     tc_isNegative := false |};
  (* line 236 *)
  {| tc_title := js "Pos_Fun_0019: Convert time format";
     tc_testId := js "Pos_Fun_0019";
     tc_input := js "9.30 AM";
     tc_expectedOutput := js "9.30 AM";
     tc_isNegative := false |};
  (* line 242 *)
  {| tc_title := js "Pos_Fun_0020: Convert date format";
     tc_testId := js "Pos_Fun_0020";
     tc_input := js "25/12/2026";
     tc_expectedOutput := js "25/12/2026";
     tc_isNegative := false |};
  (* line 248 *)
  {| tc_title := js "Pos_Fun_0021: Convert multiline input";
     tc_testId := js "Pos_Fun_0021";
     tc_input :=
       [0x006D; 0x0061; 0x006D; 0x0061; 0x0020; 0x0067; 0x0065; 0x0064;
        0x0068; 0x0061; 0x0072; 0x0061; 0x0020; 0x0079; 0x0061;
        0x006E; 0x0061; 0x0076; 0x0061; 0x0061; 0x002E; 0x000A;
        0x006F; 0x0079; 0x0061; 0x0061; 0x0020; 0x0065; 0x006E;
        0x0061; 0x0076; 0x0061; 0x0064; 0x0068; 0x0061; 0x003F];
     tc_expectedOutput :=
       [0x0DB8; 0x0DB8; 0x0020; 0x0D9C; 0x0DD9; 0x0DAF; 0x0DBB; 0x0020;
        0x0DBA; 0x0DB1; 0x0DC0; 0x0DCF; 0x002E; 0x000A; 0x0D94;
        0x0DBA; 0x0DCF; 0x0020; 0x0D91; 0x0DB1; 0x0DC0; 0x0DAF;
        0x003F];
     tc_isNegative := false |};
  (* line 254 *)
  {| tc_title := js "Pos_Fun_0022: Convert long paragraph";
     tc_testId := js "Pos_Fun_0022";
     tc_input := js "dhitvaa suLi kuNaatuva samaGa aethi vuu gQQvathura saha naayayaeem heethuven maarga sQQvarDhana aDhikaariya sathu maarga kotas 430k vinaashayata pathva aethi athara ehi samastha dhiga pramaaNaya kiloomiitar 300k pamaNa vana bava saDHahan kaLeeya.";
     tc_expectedOutput :=
       [0x0DAF; 0x0DD2; 0x0DA7; 0x0DCA; 0x0DC0; 0x0DCF; 0x0020; 0x0DC3;
        0x0DD4; 0x0DC5; 0x0DD2; 0x0020; 0x0D9A; 0x0DD4; 0x0DAB;
        0x0DCF; 0x0DA7; 0x0DD4; 0x0DC0; 0x0020; 0x0DC3; 0x0DB8;
        0x0D9F; 0x0020; 0x0D87; 0x0DAD; 0x0DD2; 0x0020; 0x0DC0;
        0x0DD6; 0x0020; 0x0D9C; 0x0D82; 0x0DC0; 0x0DAD; 0x0DD4;
        0x0DBB; 0x0020; 0x0DC3; 0x0DC4; 0x0020; 0x0DB1; 0x0DCF;
        0x0DBA; 0x0DBA; 0x0DD1; 0x0DB8; 0x0DCA; 0x0020; 0x0DC4;
        0x0DDA; 0x0DAD; 0x0DD4; 0x0DC0; 0x0DD9; 0x0DB1; 0x0DCA;
        0x0020; 0x0DB8; 0x0DCF; 0x0DBB; 0x0DCA; 0x0D9C; 0x0020;
        0x0DC3; 0x0D82; 0x0DC0; 0x0DBB; 0x0DCA; 0x0DB0; 0x0DB1;
        0x0020; 0x0D85; 0x0DB0; 0x0DD2; 0x0D9A; 0x0DCF; 0x0DBB;
        0x0DD2; 0x0DBA; 0x0020; 0x0DC3; 0x0DAD; 0x0DD4; 0x0020;
        0x0DB8; 0x0DCF; 0x0DBB; 0x0DCA; 0x0D9C; 0x0020; 0x0D9A;
        0x0DDC; 0x0DA7; 0x0DC3; 0x0DCA; 0x0020; 0x0034; 0x0033;
        0x0030; 0x0D9A; 0x0DCA; 0x0020; 0x0DC0; 0x0DD2; 0x0DB1;
        0x0DCF; 0x0DC1; 0x0DBA; 0x0DA7; 0x0020; 0x0DB4; 0x0DAD;
        0x0DCA; 0x0DC0; 0x0020; 0x0D87; 0x0DAD; 0x0DD2; 0x0020;
        0x0D85; 0x0DAD; 0x0DBB; 0x0020; 0x0D91; 0x0DC4; 0x0DD2;
        0x0020; 0x0DC3; 0x0DB8; 0x0DC3; 0x0DCA; 0x0DAD; 0x0020;
        0x0DAF; 0x0DD2; 0x0D9C; 0x0020; 0x0DB4; 0x0DCA; 0x200D;
        0x0DBB; 0x0DB8; 0x0DCF; 0x0DAB; 0x0DBA; 0x0020; 0x0D9A;
        0x0DD2; 0x0DBD; 0x0DDD; 0x0DB8; 0x0DD3; 0x0DA7; 0x0DBB;
        0x0DCA; 0x0020; 0x0033; 0x0030; 0x0030; 0x0D9A; 0x0DCA;
        0x0020; 0x0DB4; 0x0DB8; 0x0DAB; 0x0020; 0x0DC0; 0x0DB1;
        0x0020; 0x0DB6; 0x0DC0; 0x0020; 0x0DC3; 0x0DB3; 0x0DC4;
        0x0DB1; 0x0DCA; 0x0020; 0x0D9A; 0x0DC5; 0x0DDA; 0x0DBA;
        0x002E];
     tc_isNegative := false |};
  (* line 260 *)
  {| tc_title := js "Pos_Fun_0023: Convert slang expression";
     tc_testId := js "Pos_Fun_0023";
     tc_input := js "ela machan! supiri!!";
     tc_expectedOutput :=
       [0x0D91; 0x0DBD; 0x0020; 0x0DB8; 0x0DA0; 0x0D82; 0x0021; 0x0020;
        0x0DC3; 0x0DD4; 0x0DB4; 0x0DD2; 0x0DBB; 0x0DD2; 0x0021;
        0x0021];
     tc_isNegative := false |};
  (* line 266 *)
  {| tc_title := js "Pos_Fun_0024: Convert place name sentence";
     tc_testId := js "Pos_Fun_0024";
     tc_input := js "Colombo yanna hadhannee.";
     tc_expectedOutput :=
       [0x0D9A; 0x0DDC; 0x0DC5; 0x0DB9; 0x0020; 0x0DBA; 0x0DB1; 0x0DCA;
        0x0DB1; 0x0020; 0x0DC4; 0x0DAF; 0x0DB1; 0x0DCA; 0x0DB1;
        0x0DDA; 0x002E];
     tc_isNegative := false |};
  (* line 276 *)
  {| tc_title := js "Neg_Fun_0001: Handle empty input";
     tc_testId := js "Neg_Fun_0001";
     tc_input := js "";
     tc_expectedOutput := js "No meaningful Sinhala output expected";
     tc_isNegative := true |};
  (* line 283 *)
  {| tc_title := js "Neg_Fun_0002: Handle symbols only";
     tc_testId := js "Neg_Fun_0002";
     tc_input := js "@@@@@";
     tc_expectedOutput := js "No meaningful Sinhala output expected";
     tc_isNegative := true |};
  (* line 290 *)
  {| tc_title := js "Neg_Fun_0003: Handle numbers only";
     tc_testId := js "Neg_Fun_0003";
     tc_input := js "123456789";
     tc_expectedOutput := js "No meaningful Sinhala output expected";
     tc_isNegative := true |};
  (* line 297 *)
  {| tc_title := js "Neg_Fun_0004: Handle excessive spaces";
     tc_testId := js "Neg_Fun_0004";
     tc_input := js "mama     gedhara      yanavaa";
     tc_expectedOutput := js "No meaningful Sinhala output expected";
     tc_isNegative := true |};
  (* line 304 *)
  {| tc_title := js "Neg_Fun_0005: Handle mixed symbols";
     tc_testId := js "Neg_Fun_0005";
     tc_input := js "mama @@ yanavaa";
     tc_expectedOutput := js "No meaningful Sinhala output expected";
     tc_isNegative := true |};
  (* line 311 *)
  {| tc_title := js "Neg_Fun_0006: Handle Singlish input with missing spaces and informal abbreviations";
     tc_testId := js "Neg_Fun_0006";
     tc_input := js "me para weekend eka nam lit";
     tc_expectedOutput :=
       [0x0DB8; 0x0DD9; 0x0020; 0x0DB4; 0x0DBB; 0x0020; 0x0077; 0x0065;
        0x0065; 0x006B; 0x0065; 0x006E; 0x0064; 0x0020; 0x0D91;
        0x0D9A; 0x0020; 0x0DB1; 0x0DB8; 0x0DCA; 0x0020; 0x006C;
        0x0069; 0x0074];
     tc_isNegative := true |};
  (* line 318 *)
  {| tc_title := js "Neg_Fun_0007: Handle emoji input";
     tc_testId := js "Neg_Fun_0007";
     tc_input :=
       [0xD83D; 0xDE00; 0xD83D; 0xDE00; 0xD83D; 0xDE00];
     tc_expectedOutput := js "No meaningful Sinhala output expected";
     tc_isNegative := true |};
  (* line 325 *)
  {| tc_title := js "Neg_Fun_0008: Handle random English text";
     tc_testId := js "Neg_Fun_0008";
     tc_input := js "This is a random English sentence for testing.";
     tc_expectedOutput := js "No meaningful Sinhala output expected";
     tc_isNegative := true |};
  (* line 332 *)
  {| tc_title := js "Neg_Fun_0009: Handle long repeated text";
     tc_testId := js "Neg_Fun_0009";
     tc_input := js_repeat (js "mama ") 100;
     tc_expectedOutput := js "No meaningful Sinhala output expected";
     tc_isNegative := true |};
  (* line 339 *)
  {| tc_title := js "Neg_Fun_0010: Handle incorrect spelling";
     tc_testId := js "Neg_Fun_0010";
     tc_input := js "mmmaaa gdhraaa yannvaaa";
     tc_expectedOutput := js "No meaningful Sinhala output expected";
     tc_isNegative := true |}
].

(** The cases whose expected output is made of Sinhala and white space code
    units only. *)
Definition sinhala_only_cases : list jsstring :=
  [js "Pos_Fun_0013"; js "Pos_Fun_0014"; js "Pos_Fun_0015"].

(** The first case of the suite. *)
Definition Pos_Fun_0001_case : TestCase := {|
  tc_title := js "Pos_Fun_0001: Convert simple daily sentence";
  tc_testId := js "Pos_Fun_0001";
  tc_input := js "mama gedhara yanavaa.";
  tc_expectedOutput := Pos_Fun_0001_expected;
  tc_isNegative := false
|}.

(** * Proofs *)

(** ** The elements a locator resolves to *)

Lemma lookup_located (sel : Selector) (n start i : nat) :
  (i < n)%nat ->
  map (LocNth sel) (seq start n) !! i = Some (LocNth sel (start + i)).
Proof.
  revert start i. induction n as [|n IH]; intros start i Hi; [lia|].
  destruct i as [|i]; simpl.
  - by rewrite Nat.add_0_r.
  - rewrite IH by lia. f_equal. f_equal. lia.
Qed.

Lemma length_located (sel : Selector) (n start : nat) :
  length (map (LocNth sel) (seq start n)) = n.
Proof. by rewrite length_map, length_seq. Qed.

(** ** What each tier does, call by call *)

Lemma run_tier1 (env : Env) (h : Trace) :
  run tier1 env h =
  match env_count env h sel1 with
  | Throw => (Throw, [OpAll sel1])
  | Ok O => (Ok None, [OpAll sel1])
  | Ok (S n) =>
      match env_textContent env (h ++ [OpAll sel1]) (LocNth sel1 n) with
      | Ok (Some s) =>
          (Ok (Some (js_trim s)), [OpAll sel1; OpTextContent (LocNth sel1 n)])
      | _ => (Throw, [OpAll sel1; OpTextContent (LocNth sel1 n)])
      end
  end.
Proof.
  unfold run, tier1, mbind, M_bind, locator_all. fold sel1.
  destruct (env_count env h sel1) as [[|n]|]; try reflexivity.
  rewrite length_located.
  replace (S n - 1)%nat with n by lia.
  rewrite (lookup_located sel1 (S n) 0 n) by lia.
  simpl. unfold textContent.
  destruct (env_textContent env (h ++ [OpAll sel1]) (LocNth sel1 n)) as [[s|]|];
    reflexivity.
Qed.

Lemma run_tier2 (env : Env) (h : Trace) :
  run tier2 env h =
  match env_count env h sel2 with
  | Throw => (Throw, [OpAll sel2])
  | Ok (S (S n)) =>
      match env_inputValue env (h ++ [OpAll sel2]) (LocNth sel2 1) with
      | Ok v => (Ok (Some (js_trim v)), [OpAll sel2; OpInputValue (LocNth sel2 1)])
      | Throw => (Throw, [OpAll sel2; OpInputValue (LocNth sel2 1)])
      end
  | Ok _ => (Ok None, [OpAll sel2])
  end.
Proof.
  unfold run, tier2, mbind, M_bind, locator_all. fold sel2.
  destruct (env_count env h sel2) as [[|[|n]]|]; try reflexivity.
  rewrite length_located.
  rewrite (lookup_located sel2 (S (S n)) 0 1) by lia.
  simpl. unfold inputValue.
  destruct (env_inputValue env (h ++ [OpAll sel2]) (LocNth sel2 1));
    reflexivity.
Qed.

Lemma run_tier3 (env : Env) (h : Trace) :
  run tier3 env h =
  match env_textContent env h body_loc with
  | Ok (Some bodyText) =>
      match js_match sinhala_space_regex bodyText with
      | Some m0 => (Ok (Some (js_trim m0)), [tier3_call])
      | None => (Ok None, [tier3_call])
      end
  | _ => (Throw, [tier3_call])
  end.
Proof.
  unfold run, tier3, mbind, M_bind, textContent. fold body_loc.
  destruct (env_textContent env h body_loc) as [[b|]|]; try reflexivity.
  simpl. destruct (js_match sinhala_space_regex b); reflexivity.
Qed.

(** The fallback chain of [getSinhalaOutput], tier by tier. *)
Lemma getSinhalaOutput_chain (env : Env) (h : Trace) :
  run getSinhalaOutput env h =
  let '(r1, t1) := run tier1 env h in
  match found r1 with
  | Some s => (Ok s, t1)
  | None =>
      let '(r2, t2) := run tier2 env (h ++ t1) in
      match found r2 with
      | Some s => (Ok s, t1 ++ t2)
      | None =>
          let '(r3, t3) := run tier3 env ((h ++ t1) ++ t2) in
          match found r3 with
          | Some s => (Ok s, t1 ++ t2 ++ t3)
          | None => (Ok [], t1 ++ t2 ++ t3)
          end
      end
  end.
Proof.
  unfold run, getSinhalaOutput, mbind, M_bind, try_catch.
  destruct (tier1 env h) as [[[s1|]|] t1]; simpl;
    try (by rewrite app_nil_r);
    (destruct (tier2 env (h ++ t1)) as [[[s2|]|] t2]; simpl;
     try (by rewrite app_nil_r);
     (destruct (tier3 env ((h ++ t1) ++ t2)) as [[[s3|]|] t3]; simpl;
      by rewrite app_nil_r)).
Qed.

Lemma getSinhalaOutput_returns (env : Env) (h : Trace) :
  exists s t, run getSinhalaOutput env h = (Ok s, t).
Proof.
  rewrite getSinhalaOutput_chain.
  destruct (run tier1 env h) as [r1 t1].
  destruct (found r1); [eauto|].
  destruct (run tier2 env (h ++ t1)) as [r2 t2].
  destruct (found r2); [eauto|].
  destruct (run tier3 env ((h ++ t1) ++ t2)) as [r3 t3].
  destruct (found r3); eauto.
Qed.

Lemma found_nothing (r : result (option jsstring)) :
  finds_nothing r <-> found r = None.
Proof.
  unfold finds_nothing. destruct r as [[s|]|]; simpl; split; intros H;
    try done; try (by left); try (by right).
  by destruct H.
Qed.

(** ** The output extractor *)

(** C1.  [getSinhalaOutput] is total: on every page and after every trace it
    returns a string, never an exception.  A tier that raises counts as a
    tier that found nothing: control goes on to the next tier, the value of
    the first tier that finds one is returned, and when the three tiers find
    nothing the result is the empty string. *)
Theorem getSinhalaOutput_never_fails (env : Env) (h : Trace) :
  (exists s t, run getSinhalaOutput env h = (Ok s, t)) /\
  (forall r1 t1 r2 t2 r3 t3,
     run tier1 env h = (r1, t1) ->
     run tier2 env (h ++ t1) = (r2, t2) ->
     run tier3 env ((h ++ t1) ++ t2) = (r3, t3) ->
     (finds_nothing r1 -> finds_nothing r2 -> finds_nothing r3 ->
      run getSinhalaOutput env h = (Ok [], t1 ++ t2 ++ t3)) /\
     (finds_nothing r1 -> finds_nothing r2 ->
      forall s, r3 = Ok (Some s) ->
      run getSinhalaOutput env h = (Ok s, t1 ++ t2 ++ t3)) /\
     (finds_nothing r1 ->
      forall s, r2 = Ok (Some s) ->
      run getSinhalaOutput env h = (Ok s, t1 ++ t2))).
Proof.
  split.
  - apply getSinhalaOutput_returns.
  - intros r1 t1 r2 t2 r3 t3 E1 E2 E3.
    rewrite getSinhalaOutput_chain, E1.
    repeat split.
    + intros N1%found_nothing N2%found_nothing N3%found_nothing.
      by rewrite N1, E2, N2, E3, N3.
    + intros N1%found_nothing N2%found_nothing s ->.
      by rewrite N1, E2, N2, E3.
    + intros N1%found_nothing s ->.
      by rewrite N1, E2.
Qed.

Lemma getSinhalaOutput_never_fails_witness :
  run getSinhalaOutput env_dead [] = (Ok [], [OpAll sel1; tier2_call; tier3_call]).
Proof.
  apply (proj1 (proj2 (getSinhalaOutput_never_fails env_dead [])
                  Throw [OpAll sel1] Throw [tier2_call] Throw [tier3_call]
                  eq_refl eq_refl eq_refl));
    right; reflexivity.
Defined.

(** C2.  Tier 1 takes precedence.  On a page where the text selector with
    the Sinhala pattern locates [n > 0] elements and the last of them, the
    one at index [n - 1], has the text content [s], [getSinhalaOutput]
    returns [s] trimmed; it issues the two calls of tier 1 and no other, so
    the textareas and the body are not consulted. *)
Theorem tier1_takes_precedence (env : Env) (h : Trace) (n : nat) (s : jsstring) :
  env_count env h (SelText sinhala_regex) = Ok n ->
  (0 < n)%nat ->
  env_textContent env (h ++ [OpAll (SelText sinhala_regex)])
    (LocNth (SelText sinhala_regex) (n - 1)) = Ok (Some s) ->
  run getSinhalaOutput env h =
    (Ok (js_trim s),
     [OpAll (SelText sinhala_regex);
      OpTextContent (LocNth (SelText sinhala_regex) (n - 1))]).
Proof.
  intros Hn Hpos Hs. fold sel1 in *.
  rewrite getSinhalaOutput_chain, run_tier1, Hn.
  destruct n as [|n]; [lia|].
  replace (S n - 1)%nat with n in * by lia.
  by rewrite Hs.
Qed.

Lemma tier1_takes_precedence_witness :
  run getSinhalaOutput
      (env_static [[0x0D85]; [0x0020; 0x0D86; 0x0020]]
                  [js "in"; js "other"] (Some [0x0D87])) [] =
    (Ok [0x0D86],
     [OpAll (SelText sinhala_regex);
      OpTextContent (LocNth (SelText sinhala_regex) 1)]).
Proof.
  apply (tier1_takes_precedence
           (env_static [[0x0D85]; [0x0020; 0x0D86; 0x0020]]
                       [js "in"; js "other"] (Some [0x0D87]))
           [] 2 [0x0020; 0x0D86; 0x0020]).
  - reflexivity.
  - lia.
  - reflexivity.
Defined.

(** The calls a tier issues. *)
Lemma tier1_trace (env : Env) (h : Trace) :
  snd (run tier1 env h) = [OpAll sel1] \/
  exists n, snd (run tier1 env h) = [OpAll sel1; OpTextContent (LocNth sel1 n)].
Proof.
  rewrite run_tier1.
  destruct (env_count env h sel1) as [[|n]|]; [by left|..|by left].
  right. exists n.
  by destruct (env_textContent env (h ++ [OpAll sel1]) (LocNth sel1 n))
    as [[s|]|].
Qed.

Lemma tier2_trace (env : Env) (h : Trace) :
  snd (run tier2 env h) = [tier2_call] \/
  snd (run tier2 env h) = [tier2_call; OpInputValue (LocNth sel2 1)].
Proof.
  rewrite run_tier2.
  destruct (env_count env h sel2) as [[|[|n]]|]; try (by left).
  right.
  by destruct (env_inputValue env (h ++ [OpAll sel2]) (LocNth sel2 1)).
Qed.

Lemma tier3_trace (env : Env) (h : Trace) :
  snd (run tier3 env h) = [tier3_call].
Proof.
  rewrite run_tier3.
  destruct (env_textContent env h body_loc) as [[b|]|]; try done.
  by destruct (js_match sinhala_space_regex b).
Qed.

Lemma tier1_no_later_call (env : Env) (h : Trace) :
  (tier2_call ∉ snd (run tier1 env h)) /\ (tier3_call ∉ snd (run tier1 env h)).
Proof.
  destruct (tier1_trace env h) as [->|[n ->]]; split;
    rewrite ?not_elem_of_cons; repeat split; try discriminate;
    apply not_elem_of_nil.
Qed.

Lemma tier2_no_later_call (env : Env) (h : Trace) :
  (tier2_call ∈ snd (run tier2 env h)) /\ (tier3_call ∉ snd (run tier2 env h)).
Proof.
  destruct (tier2_trace env h) as [->| ->]; split;
    rewrite ?not_elem_of_cons; repeat split; try discriminate;
    try apply not_elem_of_nil; apply elem_of_cons; by left.
Qed.

(** C3.  The fallback chain is ordered by "found nothing".  In every run of
    [getSinhalaOutput], tier 2 is attempted exactly when tier 1 found
    nothing, and tier 3 exactly when tiers 1 and 2 both found nothing; when
    tier 2 finds a value, that value is returned and the body is not read. *)
Theorem fallback_chain_ordered (env : Env) (h : Trace) :
  let t := snd (run getSinhalaOutput env h) in
  let r1 := fst (run tier1 env h) in
  let t1 := snd (run tier1 env h) in
  let r2 := fst (run tier2 env (h ++ t1)) in
  let t2 := snd (run tier2 env (h ++ t1)) in
  ((tier2_call ∈ t) <-> finds_nothing r1) /\
  ((tier3_call ∈ t) <-> finds_nothing r1 /\ finds_nothing r2) /\
  (forall v, finds_nothing r1 -> r2 = Ok (Some v) ->
     run getSinhalaOutput env h = (Ok v, t1 ++ t2) /\ tier3_call ∉ t1 ++ t2).
Proof.
  cbv zeta. rewrite !found_nothing, getSinhalaOutput_chain.
  pose proof (tier1_no_later_call env h) as [A1 B1].
  destruct (run tier1 env h) as [r1 t1]; simpl in A1, B1; simpl fst; simpl snd.
  pose proof (tier2_no_later_call env (h ++ t1)) as [A2 B2].
  destruct (run tier2 env (h ++ t1)) as [r2 t2]; simpl in A2, B2;
    simpl fst; simpl snd.
  pose proof (tier3_trace env ((h ++ t1) ++ t2)) as A3.
  destruct (run tier3 env ((h ++ t1) ++ t2)) as [r3 t3]; simpl in A3; subst t3.
  destruct (found r1) as [s1|] eqn:F1; simpl.
  { split_and!; [split; [done|discriminate] | split; [done|] | ].
    - intros [? _]; discriminate.
    - intros v N1%found_nothing. congruence. }
  destruct (found r2) as [s2|] eqn:F2; simpl.
  { split_and!.
    - split; [done|]. intros _. apply elem_of_app. by right.
    - split; [|intros [_ ?]; discriminate].
      rewrite elem_of_app. tauto.
    - intros v _ ->. simplify_eq/=. split; [done|].
      rewrite elem_of_app. tauto. }
  assert (tier2_call ∈ t1 ++ t2 ++ [tier3_call]).
  { rewrite !elem_of_app. tauto. }
  assert (tier3_call ∈ t1 ++ t2 ++ [tier3_call]).
  { rewrite !elem_of_app, list_elem_of_singleton. tauto. }
  destruct (found r3); simpl; (split_and!; [done|done|]);
    intros v _ ->; discriminate.
Qed.

Lemma fallback_chain_ordered_witness :
  run getSinhalaOutput (env_static [] [js "in"; js " out "] (Some [0x0D85])) [] =
    (Ok (js "out"), [OpAll sel1] ++ [tier2_call; OpInputValue (LocNth sel2 1)]) /\
  (tier3_call ∉ [OpAll sel1] ++ [tier2_call; OpInputValue (LocNth sel2 1)]).
Proof.
  apply (proj2 (proj2 (fallback_chain_ordered
                         (env_static [] [js "in"; js " out "] (Some [0x0D85]))
                         [])) (js "out")).
  - left. reflexivity.
  - reflexivity.
Defined.

(** C4.  Tier 2.  When tier 1 finds nothing and the page has at least two
    textareas, [getSinhalaOutput] returns the current value of the textarea
    at index 1, trimmed. *)
Theorem tier2_second_control (env : Env) (h : Trace)
    (r1 : result (option jsstring)) (t1 : Trace) (n : nat) (v : jsstring) :
  run tier1 env h = (r1, t1) ->
  finds_nothing r1 ->
  env_count env (h ++ t1) (SelTag "textarea") = Ok n ->
  (2 <= n)%nat ->
  env_inputValue env ((h ++ t1) ++ [OpAll (SelTag "textarea")])
    (LocNth (SelTag "textarea") 1) = Ok v ->
  run getSinhalaOutput env h =
    (Ok (js_trim v),
     t1 ++ [OpAll (SelTag "textarea");
            OpInputValue (LocNth (SelTag "textarea") 1)]).
Proof.
  intros E1 N1%found_nothing Hn Hge Hv. fold sel2 in *.
  rewrite getSinhalaOutput_chain, E1, N1, run_tier2, Hn.
  destruct n as [|[|n]]; [lia|lia|].
  by rewrite Hv.
Qed.

Lemma tier2_second_control_witness :
  run getSinhalaOutput
      (env_static [] [js "mama"; [0x0020; 0x0DB8; 0x0DB8; 0x000A]; js "third"]
                  (Some [0x0D85])) [] =
    (Ok [0x0DB8; 0x0DB8],
     [OpAll sel1; OpAll (SelTag "textarea");
      OpInputValue (LocNth (SelTag "textarea") 1)]).
Proof.
  apply (tier2_second_control
           (env_static [] [js "mama"; [0x0020; 0x0DB8; 0x0DB8; 0x000A]; js "third"]
                       (Some [0x0D85]))
           [] (Ok None) [OpAll sel1] 3 [0x0020; 0x0DB8; 0x0DB8; 0x000A]).
  - reflexivity.
  - left. reflexivity.
  - reflexivity.
  - lia.
  - reflexivity.
Defined.

(** ** The Sinhala pattern *)

Lemma is_sinhala_range (c : N) : is_sinhala c = true <-> 0x0D80 <= c <= 0x0DFF.
Proof. unfold is_sinhala. rewrite andb_true_iff, !N.leb_le. tauto. Qed.

Lemma sinhala_class_accepts (c : N) :
  class_accepts sinhala_class c = is_sinhala c.
Proof. unfold class_accepts, sinhala_class. simpl. apply orb_false_r. Qed.

Lemma sinhala_space_class_accepts (c : N) :
  class_accepts sinhala_space_class c = is_sinhala c || is_js_whitespace c.
Proof.
  unfold class_accepts, sinhala_space_class. simpl. by rewrite orb_false_r.
Qed.

Lemma whitespace_not_sinhala (c : N) :
  is_js_whitespace c = true -> is_sinhala c = false.
Proof.
  unfold is_js_whitespace, is_sinhala.
  rewrite !orb_true_iff, !andb_true_iff, !N.eqb_eq, !N.leb_le.
  intros H. apply andb_false_iff. rewrite !N.leb_gt. lia.
Qed.

Lemma js_match_single (re : Regex) (c : N) :
  js_match re [c] =
  if class_accepts (regex_class re) c then Some [c] else None.
Proof.
  unfold js_match. cbn [drop_while take_while].
  destruct (class_accepts (regex_class re) c) eqn:E; cbn; [|done].
  by rewrite E.
Qed.

(** C9.  The character class of the pattern of tier 1 (inside the text
    selector) and of tier 3 (applied to the body text) is the closed range
    U+0D80 to U+0DFF.  The class of tier 1 accepts a code unit exactly when
    it lies in the range, and the pattern matches a one-unit string exactly
    then; the class of tier 3 accepts exactly the code units of the range and
    the white space code units; no white space code unit is accepted in
    tier 1. *)
Theorem sinhala_pattern_range (c : N) :
  (class_accepts (regex_class sinhala_regex) c = true <->
     0x0D80 <= c <= 0x0DFF) /\
  (class_accepts (regex_class sinhala_space_regex) c = true <->
     0x0D80 <= c <= 0x0DFF \/ is_js_whitespace c = true) /\
  (js_match sinhala_regex [c] = Some [c] <-> 0x0D80 <= c <= 0x0DFF) /\
  (js_match sinhala_space_regex [c] = Some [c] <->
     0x0D80 <= c <= 0x0DFF \/ is_js_whitespace c = true) /\
  (is_js_whitespace c = true ->
     class_accepts (regex_class sinhala_regex) c = false).
Proof.
  rewrite !js_match_single. simpl regex_class.
  rewrite sinhala_class_accepts, sinhala_space_class_accepts.
  rewrite orb_true_iff, is_sinhala_range.
  split_and!; [done|done| | |apply whitespace_not_sinhala].
  - rewrite <- is_sinhala_range. by destruct (is_sinhala c).
  - rewrite <- is_sinhala_range, <- orb_true_iff.
    by destruct (is_sinhala c || is_js_whitespace c).
Qed.

Lemma sinhala_pattern_range_witness :
  class_accepts (regex_class sinhala_regex) 0x0020 = false.
Proof.
  apply (proj2 (proj2 (proj2 (proj2 (sinhala_pattern_range 0x0020))))).
  reflexivity.
Defined.

(** ** The whole-body pattern and white space *)

Lemma drop_while_app_all (p : N -> bool) (l1 l2 : jsstring) :
  Forall (fun c => p c = true) l1 ->
  drop_while p (l1 ++ l2) = drop_while p l2.
Proof.
  induction 1 as [|c l1 Hc _ IH]; [done|].
  simpl. by rewrite Hc.
Qed.

Lemma take_while_app_all (p : N -> bool) (l1 l2 : jsstring) :
  Forall (fun c => p c = true) l1 ->
  take_while p (l1 ++ l2) = l1 ++ take_while p l2.
Proof.
  induction 1 as [|c l1 Hc _ IH]; [done|].
  simpl. by rewrite Hc, IH.
Qed.

Lemma take_while_all (p : N -> bool) (s : jsstring) :
  Forall (fun c => p c = true) (take_while p s).
Proof.
  induction s as [|c s IH]; simpl; [constructor|].
  destruct (p c) eqn:E; constructor; done.
Qed.

Lemma drop_while_suffix (p : N -> bool) (s : jsstring) :
  exists pre, s = pre ++ drop_while p s.
Proof.
  induction s as [|c s [pre IH]]; simpl; [by exists []|].
  destruct (p c); [|by exists []].
  exists (c :: pre). simpl. by f_equal.
Qed.

Lemma take_while_prefix (p : N -> bool) (s : jsstring) :
  exists post, s = take_while p s ++ post.
Proof.
  induction s as [|c s [post IH]]; simpl; [by exists []|].
  destruct (p c); [|by exists (c :: s)].
  exists post. simpl. by f_equal.
Qed.

Lemma js_trim_whitespace (ws : jsstring) :
  Forall (fun c => is_js_whitespace c = true) ws -> js_trim ws = [].
Proof.
  intros H. unfold js_trim.
  rewrite <- (app_nil_r ws), drop_while_app_all by done. reflexivity.
Qed.

Lemma drop_while_keeps_last (p : N -> bool) (l : jsstring) (c : N) :
  p c = false -> exists l', drop_while p (l ++ [c]) = l' ++ [c].
Proof.
  intros Hc. induction l as [|x l [l' IH]]; simpl.
  - rewrite Hc. by exists [].
  - destruct (p x); [by exists l'|]. by exists (x :: l).
Qed.

(** The trimmed text starts at the first code unit that is not white
    space. *)
Lemma js_trim_starts (ws : jsstring) (c : N) (rest : jsstring) :
  Forall (fun c => is_js_whitespace c = true) ws ->
  is_js_whitespace c = false ->
  exists out, js_trim (ws ++ c :: rest) = c :: out.
Proof.
  intros Hws Hc. unfold js_trim.
  rewrite drop_while_app_all by done. simpl. rewrite Hc.
  simpl rev.
  destruct (drop_while_keeps_last is_js_whitespace (rev rest) c Hc) as [l' ->].
  rewrite rev_app_distr. simpl. by exists (rev l').
Qed.

(** The match of the whole-body pattern in a text whose first accepted code
    units are a run [ws] of white space ending before [rest]. *)
Lemma js_match_leading_whitespace (pre ws rest : jsstring) :
  Forall (fun c => class_accepts sinhala_space_class c = false) pre ->
  ws <> [] ->
  Forall (fun c => is_js_whitespace c = true) ws ->
  js_match sinhala_space_regex (pre ++ ws ++ rest) =
    Some (ws ++ take_while (class_accepts sinhala_space_class) rest).
Proof.
  intros Hpre Hne Hws. unfold js_match. simpl regex_class.
  rewrite drop_while_app_all.
  2:{ eapply Forall_impl; [|exact Hpre]. intros c Hc; cbv beta in *. by rewrite Hc. }
  destruct ws as [|w ws]; [done|].
  assert (Forall (fun c => class_accepts sinhala_space_class c = true) (w :: ws))
    as Hacc.
  { eapply Forall_impl; [|exact Hws]. intros c Hc; cbv beta in *.
    rewrite sinhala_space_class_accepts, Hc. apply orb_true_r. }
  pose proof (Forall_inv Hacc) as Hw. cbv beta in Hw.
  change ((w :: ws) ++ rest) with (w :: (ws ++ rest)).
  cbn [drop_while]. rewrite Hw. cbn [negb].
  change (w :: (ws ++ rest)) with ((w :: ws) ++ rest).
  by rewrite take_while_app_all.
Qed.

Lemma sinhala_not_whitespace (c : N) :
  is_sinhala c = true -> is_js_whitespace c = false.
Proof.
  intros Hs. destruct (is_js_whitespace c) eqn:E; [|done].
  apply whitespace_not_sinhala in E. congruence.
Qed.

Lemma run_tier3_found (env : Env) (h : Trace) (bodyText m0 : jsstring) :
  env_textContent env h body_loc = Ok (Some bodyText) ->
  js_match sinhala_space_regex bodyText = Some m0 ->
  run tier3 env h = (Ok (Some (js_trim m0)), [tier3_call]).
Proof. intros Hb Hm. by rewrite run_tier3, Hb, Hm. Qed.

(** C10, amended.  The pattern of tier 3 accepts white space, so it can
    match a run of white space alone.  Let tiers 1 and 2 find nothing and let
    the first code units of the body text that are white space or Sinhala be
    a run [ws] of white space.  When the run ends the text or is followed by
    a code unit that is neither white space nor Sinhala, the first match is
    [ws] and [getSinhalaOutput] returns the empty string, whatever Sinhala
    text comes later in the body.  When the run is followed at once by a
    Sinhala code unit, the match goes on into the Sinhala text and the result
    starts with that code unit. *)
Theorem whole_body_leading_whitespace (env : Env) (h : Trace)
    (r1 r2 : result (option jsstring)) (t1 t2 : Trace)
    (pre ws rest : jsstring) :
  run tier1 env h = (r1, t1) -> finds_nothing r1 ->
  run tier2 env (h ++ t1) = (r2, t2) -> finds_nothing r2 ->
  env_textContent env ((h ++ t1) ++ t2) body_loc = Ok (Some (pre ++ ws ++ rest)) ->
  Forall (fun c => class_accepts sinhala_space_class c = false) pre ->
  ws <> [] ->
  Forall (fun c => is_js_whitespace c = true) ws ->
  (match rest with
   | [] => True
   | x :: _ => class_accepts sinhala_space_class x = false
   end ->
   run getSinhalaOutput env h = (Ok [], t1 ++ t2 ++ [tier3_call])) /\
  (forall s rest', rest = s :: rest' -> is_sinhala s = true ->
   exists out,
     run getSinhalaOutput env h = (Ok (s :: out), t1 ++ t2 ++ [tier3_call])).
Proof.
  intros E1 N1%found_nothing E2 N2%found_nothing Hb Hpre Hne Hws.
  pose proof (js_match_leading_whitespace pre ws rest Hpre Hne Hws) as Hm.
  rewrite getSinhalaOutput_chain, E1, N1, E2, N2.
  rewrite (run_tier3_found _ _ _ _ Hb Hm). simpl found.
  split.
  - intros Hrest.
    assert (take_while (class_accepts sinhala_space_class) rest = []) as ->.
    { destruct rest as [|x rest']; [done|]. cbn [take_while].
      by rewrite Hrest. }
    rewrite app_nil_r, js_trim_whitespace by done. reflexivity.
  - intros s rest' -> Hs.
    cbn [take_while].
    rewrite sinhala_space_class_accepts, Hs. cbn [orb].
    destruct (js_trim_starts ws s
                (take_while (class_accepts sinhala_space_class) rest')
                Hws (sinhala_not_whitespace s Hs)) as [out ->].
    by exists out.
Qed.

Lemma whole_body_leading_whitespace_witness :
  run getSinhalaOutput
      (env_static [] [js "in"]
         (Some (js "Swift" ++ [0x0020] ++ js "Translator" ++ [0x0020; 0x0DC3; 0x0DD2])))
      [] =
  (Ok [], [OpAll sel1] ++ [tier2_call] ++ [tier3_call]).
Proof.
  apply (proj1 (whole_body_leading_whitespace
                  (env_static [] [js "in"]
                     (Some (js "Swift" ++ [0x0020] ++ js "Translator"
                              ++ [0x0020; 0x0DC3; 0x0DD2])))
                  [] (Ok None) (Ok None) [OpAll sel1] [tier2_call]
                  (js "Swift") [0x0020]
                  (js "Translator" ++ [0x0020; 0x0DC3; 0x0DD2])
                  eq_refl (or_introl eq_refl) eq_refl (or_introl eq_refl)
                  eq_refl
                  ltac:(repeat constructor)
                  ltac:(discriminate)
                  ltac:(repeat constructor))).
  reflexivity.
Defined.

(** C10 as stated fails: in the body text " අ" a white space code unit comes
    before the first Sinhala one, tiers 1 and 2 find nothing, and the result
    is the Sinhala text, not the empty string. *)
Lemma whole_body_whitespace_joins_sinhala :
  whitespace_before_first_sinhala [0x0020; 0x0D85] /\
  finds_nothing
    (fst (run tier1 (env_static [] [js "in"] (Some [0x0020; 0x0D85])) [])) /\
  finds_nothing
    (fst (run tier2 (env_static [] [js "in"] (Some [0x0020; 0x0D85]))
            [OpAll sel1])) /\
  run getSinhalaOutput (env_static [] [js "in"] (Some [0x0020; 0x0D85])) [] =
    (Ok [0x0D85], [OpAll sel1; tier2_call; tier3_call]) /\
  [0x0D85] <> ([] : jsstring).
Proof.
  split_and!.
  - exists [], 0x0020, [], 0x0D85, []. split_and!; try reflexivity.
    repeat constructor.
  - left; reflexivity.
  - left; reflexivity.
  - reflexivity.
  - discriminate.
Qed.

(** ** Degradation *)

Lemma accepted_not_sinhala_is_whitespace (m : jsstring) :
  Forall (fun c => class_accepts sinhala_space_class c = true) m ->
  Forall (fun c => is_sinhala c = false) m ->
  Forall (fun c => is_js_whitespace c = true) m.
Proof.
  induction m as [|c m IH]; intros Hacc Hns; [constructor|].
  inversion Hacc as [|? ? Hc Hacc']; inversion Hns as [|? ? Hn Hns']; subst.
  constructor; [|by apply IH].
  rewrite sinhala_space_class_accepts, Hn in Hc. exact Hc.
Qed.

(** A match is a stretch of the text, made of accepted code units. *)
Lemma js_match_stretch (re : Regex) (s m0 : jsstring) :
  js_match re s = Some m0 ->
  (exists pre post, s = pre ++ m0 ++ post) /\
  Forall (fun c => class_accepts (regex_class re) c = true) m0.
Proof.
  unfold js_match.
  set (acc := class_accepts (regex_class re)).
  destruct (drop_while_suffix (fun c => negb (acc c)) s) as [pre Hsplit].
  destruct (drop_while (fun c => negb (acc c)) s) as [|x run] eqn:E; [done|].
  remember (x :: run) as r eqn:Hr.
  intros Hm. assert (m0 = take_while acc r) as -> by congruence.
  split; [|apply take_while_all].
  destruct (take_while_prefix acc r) as [post Hrun].
  exists pre, post. by rewrite <- Hrun.
Qed.

Lemma js_match_without_sinhala (body m0 : jsstring) :
  Forall (fun c => is_sinhala c = false) body ->
  js_match sinhala_space_regex body = Some m0 ->
  Forall (fun c => is_js_whitespace c = true) m0.
Proof.
  intros Hbody Hm.
  apply js_match_stretch in Hm as [(pre & post & ->) Hacc].
  apply accepted_not_sinhala_is_whitespace; [exact Hacc|].
  apply Forall_app in Hbody as [_ Hbody].
  by apply Forall_app in Hbody as [Hbody _].
Qed.

(** On a page where the text selector locates nothing, there are fewer than
    two textareas and the body text has no code unit of the Sinhala range,
    the extractor returns the empty string. *)
Lemma extractor_degradation (env : Env) (h : Trace) (n : nat) (body : jsstring) :
  env_count env h sel1 = Ok 0%nat ->
  env_count env (h ++ [OpAll sel1]) sel2 = Ok n -> (n < 2)%nat ->
  env_textContent env ((h ++ [OpAll sel1]) ++ [tier2_call]) body_loc
    = Ok (Some body) ->
  Forall (fun c => is_sinhala c = false) body ->
  run getSinhalaOutput env h = (Ok [], [OpAll sel1; tier2_call; tier3_call]).
Proof.
  intros H1 H2 Hn Hb Hbody. unfold tier2_call in *.
  rewrite getSinhalaOutput_chain, run_tier1, H1. simpl found.
  rewrite run_tier2, H2.
  destruct n as [|[|n]]; [| |lia]; simpl found;
    rewrite run_tier3, Hb;
    (destruct (js_match sinhala_space_regex body) as [m0|] eqn:Hm; [|done]);
    simpl found;
    by rewrite (js_trim_whitespace m0 (js_match_without_sinhala _ _ Hbody Hm)).
Qed.

(** ** Verdicts *)

Lemma run_bind {A B} (m : M A) (f : A -> M B) (env : Env) (h : Trace) :
  run (m ≫= f) env h =
  match run m env h with
  | (Ok a, t1) => let '(r, t2) := run (f a) env (h ++ t1) in (r, t1 ++ t2)
  | (Throw, t1) => (Throw, t1)
  end.
Proof. reflexivity. Qed.

Lemma status_lines_app (t1 t2 : Trace) :
  status_lines (t1 ++ t2) = status_lines t1 ++ status_lines t2.
Proof. apply omap_app. Qed.

(** The extractor prints nothing. *)
Lemma getSinhalaOutput_silent (env : Env) (h : Trace) :
  status_lines (snd (run getSinhalaOutput env h)) = [].
Proof.
  rewrite getSinhalaOutput_chain.
  pose proof (tier1_trace env h) as A1.
  destruct (run tier1 env h) as [r1 t1]; simpl in A1.
  assert (status_lines t1 = []) as S1 by (by destruct A1 as [->|[n ->]]).
  pose proof (tier2_trace env (h ++ t1)) as A2.
  destruct (run tier2 env (h ++ t1)) as [r2 t2]; simpl in A2.
  assert (status_lines t2 = []) as S2 by (by destruct A2 as [->| ->]).
  pose proof (tier3_trace env ((h ++ t1) ++ t2)) as A3.
  destruct (run tier3 env ((h ++ t1) ++ t2)) as [r3 t3]; simpl in A3; subst t3.
  destruct (found r1); [done|].
  destruct (found r2); simpl; [by rewrite status_lines_app, S1, S2|].
  destruct (found r3); simpl; by rewrite !status_lines_app, S1, S2.
Qed.

(** The lines [runTest] prints at the verdict. *)
Lemma runTest_verdict_status (testId input expectedOutput actualOutput : jsstring)
    (isNegative : bool) (env : Env) (h : Trace) :
  fst (run (runTest_verdict testId input expectedOutput isNegative actualOutput)
         env h) = Ok tt /\
  status_lines
    (snd (run (runTest_verdict testId input expectedOutput isNegative actualOutput)
            env h)) =
  [if isNegative
   then (if negb (js_strict_eq actualOutput expectedOutput)
         then PASS_correctly_fails else FAIL)
   else (if js_strict_eq actualOutput expectedOutput then PASS else FAIL)].
Proof.
  unfold runTest_verdict.
  destruct isNegative, (js_strict_eq actualOutput expectedOutput);
    split; reflexivity.
Qed.

Lemma run_action_bind {B} (op : Op) (k : M B) (env : Env) (h : Trace) :
  run (action op;; k) env h =
  match env_action env h op with
  | Ok _ => let '(r, t) := run k env (h ++ [op]) in (r, op :: t)
  | Throw => (Throw, [op])
  end.
Proof.
  rewrite run_bind. unfold run at 1, action.
  destruct (env_action env h op); reflexivity.
Qed.

(** Step over the next awaited action of a run: either it rejects, and the
    run ends there, or the run goes on. *)
Ltac step_action :=
  rewrite run_action_bind;
  match goal with
  | |- context [env_action ?e ?h ?o] => destruct (env_action e h o)
  end; [|done].

Lemma run_console_bind {B} (lvl : ConsoleLevel) (args : list jsstring)
    (k : M B) (env : Env) (h : Trace) :
  run (console lvl args;; k) env h =
  let '(r, t) := run k env (h ++ [OpConsole lvl args]) in
  (r, OpConsole lvl args :: t).
Proof. reflexivity. Qed.

Lemma translateText_silent (input : jsstring) (env : Env) (h : Trace) :
  status_lines (snd (run (translateText input) env h)) = [].
Proof.
  unfold translateText, waitForTranslation.
  repeat step_action.
  match goal with
  | |- context [run getSinhalaOutput ?e ?h] =>
      pose proof (getSinhalaOutput_silent e h) as S;
      destruct (run getSinhalaOutput e h) as [r t]
  end.
  exact S.
Qed.

(** A whole run of [runTest]: when it returns, it has printed one status
    line, the one of the verdict on the output it returns. *)
Lemma runTest_status (testId input expectedOutput : jsstring)
    (isNegative : bool) (env : Env) (h : Trace) :
  match run (runTest testId input expectedOutput isNegative) env h with
  | (Ok actualOutput, t) =>
      status_lines t =
      [if isNegative
       then (if negb (js_strict_eq actualOutput expectedOutput)
             then PASS_correctly_fails else FAIL)
       else (if js_strict_eq actualOutput expectedOutput then PASS else FAIL)]
  | (Throw, _) => True
  end.
Proof.
  unfold runTest.
  rewrite run_console_bind. step_action.
  rewrite run_console_bind, run_bind.
  match goal with
  | |- context [run (translateText input) ?e ?h] =>
      pose proof (translateText_silent input e h) as S;
      destruct (run (translateText input) e h) as [[actualOutput|] t]
  end; [|done].
  simpl in S. rewrite run_bind.
  match goal with
  | |- context [run (runTest_verdict ?a ?b ?c ?d ?e) ?env ?h] =>
      pose proof (runTest_verdict_status a b c e d env h) as [V1 V2];
      destruct (run (runTest_verdict a b c d e) env h) as [rv tv]
  end.
  simpl in V1, V2. subst rv.
  step_action.
  simpl. rewrite !status_lines_app, S, V2. reflexivity.
Qed.

Lemma js_strict_eq_true (a b : jsstring) : js_strict_eq a b = true <-> a = b.
Proof. apply bool_decide_eq_true. Qed.

Lemma js_strict_eq_false (a b : jsstring) : js_strict_eq a b = false <-> a <> b.
Proof. apply bool_decide_eq_false. Qed.

Lemma says_PASS_lines :
  says_PASS PASS = true /\ says_PASS PASS_correctly_fails = true /\
  says_PASS FAIL = false.
Proof. repeat split; reflexivity. Qed.

(** C5.  Positive mode.  For every test case run with [isNegative = false]
    and every actual output, the verdict printed is PASS exactly when the
    actual output is the same sequence of code units as the expected output;
    the comparison is applied to the two strings as they are.  The same holds
    of every whole run of [runTest] that returns, for the output it
    returns. *)
Theorem positive_verdict_exact_equality (testId input expectedOutput : jsstring) :
  (forall (actualOutput : jsstring) (env : Env) (h : Trace),
     exists passed,
       verdict_passed
         (snd (run (runTest_verdict testId input expectedOutput false actualOutput)
                 env h)) = Some passed /\
       (passed = true <-> actualOutput = expectedOutput)) /\
  (forall (env : Env) (h : Trace),
     match run (runTest testId input expectedOutput false) env h with
     | (Ok actualOutput, t) =>
         exists passed,
           verdict_passed t = Some passed /\
           (passed = true <-> actualOutput = expectedOutput)
     | (Throw, _) => True
     end).
Proof.
  assert (forall actualOutput,
            says_PASS (if js_strict_eq actualOutput expectedOutput
                       then PASS else FAIL) = true
            <-> actualOutput = expectedOutput) as Hpass.
  { intros a. rewrite <- js_strict_eq_true.
    by destruct (js_strict_eq a expectedOutput). }
  split.
  - intros actualOutput env h.
    destruct (runTest_verdict_status testId input expectedOutput actualOutput
                false env h) as [_ V].
    unfold verdict_passed. rewrite V. eauto.
  - intros env h.
    pose proof (runTest_status testId input expectedOutput false env h) as V.
    destruct (run (runTest testId input expectedOutput false) env h)
      as [[actualOutput|] t]; [|done].
    unfold verdict_passed. rewrite V. eauto.
Qed.

(** C6.  Negative mode.  For every test case run with [isNegative = true]
    and every actual output, the verdict printed is PASS exactly when the
    actual output differs from the expected output.  So an empty actual
    output passes whenever the expected output is not empty, and fails when
    the expected output is empty too. *)
Theorem negative_verdict_inequality (testId input expectedOutput : jsstring) :
  (forall (actualOutput : jsstring) (env : Env) (h : Trace),
     exists passed,
       verdict_passed
         (snd (run (runTest_verdict testId input expectedOutput true actualOutput)
                 env h)) = Some passed /\
       (passed = true <-> actualOutput <> expectedOutput)) /\
  (forall (env : Env) (h : Trace),
     match run (runTest testId input expectedOutput true) env h with
     | (Ok actualOutput, t) =>
         exists passed,
           verdict_passed t = Some passed /\
           (passed = true <-> actualOutput <> expectedOutput)
     | (Throw, _) => True
     end) /\
  (forall (env : Env) (h : Trace),
     expectedOutput <> [] ->
     verdict_passed
       (snd (run (runTest_verdict testId input expectedOutput true []) env h)) =
     Some true) /\
  (forall (env : Env) (h : Trace),
     expectedOutput = [] ->
     verdict_passed
       (snd (run (runTest_verdict testId input expectedOutput true []) env h)) =
     Some false).
Proof.
  assert (forall actualOutput,
            says_PASS (if negb (js_strict_eq actualOutput expectedOutput)
                       then PASS_correctly_fails else FAIL) = true
            <-> actualOutput <> expectedOutput) as Hpass.
  { intros a. rewrite <- js_strict_eq_false.
    by destruct (js_strict_eq a expectedOutput). }
  split_and!.
  - intros actualOutput env h.
    destruct (runTest_verdict_status testId input expectedOutput actualOutput
                true env h) as [_ V].
    unfold verdict_passed. rewrite V. eauto.
  - intros env h.
    pose proof (runTest_status testId input expectedOutput true env h) as V.
    destruct (run (runTest testId input expectedOutput true) env h)
      as [[actualOutput|] t]; [|done].
    unfold verdict_passed. rewrite V. eauto.
  - intros env h Hne.
    destruct (runTest_verdict_status testId input expectedOutput []
                true env h) as [_ V].
    unfold verdict_passed. rewrite V.
    by destruct expectedOutput.
  - intros env h ->.
    destruct (runTest_verdict_status testId input [] [] true env h) as [_ V].
    unfold verdict_passed. by rewrite V.
Qed.

Lemma positive_verdict_exact_equality_witness :
  exists passed,
    verdict_passed
      (snd (run (runTest_verdict (js "Pos_Fun_0001") (js "mama gedhara yanavaa.")
                   Pos_Fun_0001_expected false Pos_Fun_0001_expected)
              env_dead [])) = Some passed /\
    (passed = true <-> Pos_Fun_0001_expected = Pos_Fun_0001_expected).
Proof.
  exact (proj1 (positive_verdict_exact_equality
                  (js "Pos_Fun_0001") (js "mama gedhara yanavaa.")
                  Pos_Fun_0001_expected)
           Pos_Fun_0001_expected env_dead []).
Defined.

Lemma negative_verdict_inequality_witness :
  verdict_passed
    (snd (run (runTest_verdict (js "Neg_Fun_0001") [] Neg_Fun_0001_expected
                 true [])
            env_dead [])) = Some true.
Proof.
  apply (proj1 (proj2 (proj2 (negative_verdict_inequality
                                (js "Neg_Fun_0001") [] Neg_Fun_0001_expected)))
           env_dead []).
  discriminate.
Defined.

(** The first positive case on a page showing the expected text passes; a
    page showing the text without its final full stop fails it; a page whose
    text differs only in a space inside fails it too. *)
Example Pos_Fun_0001_on_pages :
  verdict_passed
    (snd (run Pos_Fun_0001 (env_static [Pos_Fun_0001_expected] [] None) []))
    = Some true /\
  verdict_passed
    (snd (run Pos_Fun_0001
            (env_static [take 12 Pos_Fun_0001_expected] [] None) []))
    = Some false /\
  verdict_passed
    (snd (run Pos_Fun_0001
            (env_static [take 2 Pos_Fun_0001_expected ++ [0x0020]
                           ++ drop 2 Pos_Fun_0001_expected] [] None) []))
    = Some false.
Proof. split_and!; vm_compute; reflexivity. Qed.

(** The first negative case passes on a page with no output at all. *)
Example Neg_Fun_0001_on_empty_page :
  run Neg_Fun_0001 (env_static [] [] (Some [])) [] =
    (Ok [], snd (run Neg_Fun_0001 (env_static [] [] (Some [])) [])) /\
  verdict_passed (snd (run Neg_Fun_0001 (env_static [] [] (Some [])) []))
    = Some true.
Proof. split; vm_compute; reflexivity. Qed.

(** ** The real-time update monitor *)

Lemma run_typing_loop_cons (c : N) (rest : jsstring) (i : nat)
    (st : MonitorState) (env : Env) (h : Trace) :
  run (typing_loop (c :: rest) i st) env h =
  match run (typing_iteration c i st) env h with
  | (Ok r, t1) =>
      let '(r', t2) := run (typing_loop rest (S i) (fst r)) env (h ++ t1) in
      (r', t1 ++ t2)
  | (Throw, t1) => (Throw, t1)
  end.
Proof. reflexivity. Qed.

Lemma run_typing_loop_samples_cons (c : N) (rest : jsstring) (i : nat)
    (st : MonitorState) (env : Env) (h : Trace) :
  run (typing_loop_samples (c :: rest) i st) env h =
  match run (typing_iteration c i st) env h with
  | (Ok r, t1) =>
      match run (typing_loop_samples rest (S i) (fst r)) env (h ++ t1) with
      | (Ok r', t2) => (Ok (fst r', snd r :: snd r'), t1 ++ t2)
      | (Throw, t2) => (Throw, t1 ++ t2)
      end
  | (Throw, t1) => (Throw, t1)
  end.
Proof.
  simpl typing_loop_samples. rewrite run_bind.
  destruct (run (typing_iteration c i st) env h) as [[r|] t1]; [|done].
  rewrite run_bind.
  destruct (run (typing_loop_samples rest (S i) (fst r)) env (h ++ t1))
    as [[r'|] t2]; [|done].
  unfold run at 1, mret, M_ret. by rewrite app_nil_r.
Qed.

(** One iteration applies the counting rule to the output it samples. *)
Lemma typing_iteration_rule (c : N) (i : nat) (st : MonitorState)
    (env : Env) (h : Trace) :
  match run (typing_iteration c i st) env h with
  | (Ok (st', currentOutput), _) => st' = spec_count_step st currentOutput
  | (Throw, _) => True
  end.
Proof.
  unfold typing_iteration.
  step_action.
  step_action.
  rewrite run_bind.
  match goal with
  | |- context [run getSinhalaOutput ?e ?h] =>
      destruct (getSinhalaOutput_returns e h) as (cur & t & ->)
  end.
  unfold spec_count_step, js_strict_eq, js_length.
  destruct (bool_decide_reflect (cur = previousOutput st)) as [E|E]; simpl.
  - rewrite decide_False by tauto. done.
  - destruct cur as [|x cur]; simpl.
    + rewrite decide_False by tauto. done.
    + rewrite decide_True by done. by rewrite Nat.add_1_r.
Qed.

(** The loop is the counting rule folded over the sampled outputs, one
    sample for each code unit typed. *)
Lemma typing_loop_counts (chars : jsstring) (i : nat) (st : MonitorState)
    (env : Env) (h : Trace) :
  match run (typing_loop_samples chars i st) env h with
  | (Ok (st', samples), t) =>
      run (typing_loop chars i st) env h = (Ok st', t) /\
      length samples = length chars /\
      st' = foldl spec_count_step st samples
  | (Throw, t) => run (typing_loop chars i st) env h = (Throw, t)
  end.
Proof.
  revert i st h. induction chars as [|c rest IH]; intros i st h.
  - by cbn.
  - rewrite run_typing_loop_samples_cons, run_typing_loop_cons.
    pose proof (typing_iteration_rule c i st env h) as R.
    destruct (run (typing_iteration c i st) env h) as [[[st1 cur]|] t1];
      [|done].
    simpl fst. simpl snd.
    specialize (IH (S i) st1 (h ++ t1)).
    destruct (run (typing_loop_samples rest (S i) st1) env (h ++ t1))
      as [[[st' samples]|] t2].
    + destruct IH as (-> & Hlen & ->). simpl. subst st1.
      by rewrite Hlen.
    + by rewrite IH.
Qed.

Lemma foldl_count_settled (n : nat) (st : MonitorState) :
  foldl spec_count_step st (replicate n (previousOutput st)) = st.
Proof.
  induction n as [|n IH]; [done|].
  simpl. unfold spec_count_step at 2.
  rewrite decide_False by tauto. exact IH.
Qed.

(** C7, amended.  For every input and every page, the loop of the UI
    scenario samples one output for each code unit typed, and the variables
    it ends with are those of the counting rule (increment [outputUpdates]
    and set [previousOutput] exactly when the sampled output differs from
    [previousOutput] and is non-empty) folded over the samples from
    [outputUpdates = 0] and the empty [previousOutput].  The samples empty,
    "a-ish", "ab-ish" count 2 updates, and so do the samples "a-ish",
    "ab-ish"; samples that never change count 0 updates when the unchanging
    sample is empty, and 1 update when it is not empty. *)
Theorem monitor_counting_rule :
  (forall (input : jsstring) (env : Env) (h : Trace),
     match run (typing_loop_samples input 0 monitor_init) env h with
     | (Ok (st, samples), t) =>
         run (typing_loop input 0 monitor_init) env h = (Ok st, t) /\
         length samples = length input /\
         st = spec_monitor samples
     | (Throw, t) => run (typing_loop input 0 monitor_init) env h = (Throw, t)
     end) /\
  outputUpdates (spec_monitor [[]; a_ish; ab_ish]) = 2%nat /\
  outputUpdates (spec_monitor [a_ish; ab_ish]) = 2%nat /\
  (forall n : nat, outputUpdates (spec_monitor (replicate n [])) = 0%nat) /\
  (forall (n : nat) (s : jsstring),
     s <> [] -> outputUpdates (spec_monitor (replicate (S n) s)) = 1%nat).
Proof.
  split_and!.
  - intros input env h. apply typing_loop_counts.
  - reflexivity.
  - reflexivity.
  - intros n. unfold spec_monitor.
    change (replicate n []) with (replicate n (previousOutput monitor_init)).
    by rewrite foldl_count_settled.
  - intros n s Hs. unfold spec_monitor. simpl.
    unfold spec_count_step at 2. rewrite decide_True by done.
    change (replicate n s) with
      (replicate n (previousOutput
                      {| outputUpdates := outputUpdates monitor_init + 1;
                         previousOutput := s |})).
    by rewrite foldl_count_settled.
Qed.

Lemma monitor_counting_rule_witness :
  outputUpdates (spec_monitor (replicate 3 (js "x"))) = 1%nat.
Proof.
  apply (proj2 (proj2 (proj2 (proj2 monitor_counting_rule))) 2%nat (js "x")).
  discriminate.
Defined.

(** C7 as stated fails: on a page whose output reads "x" after each of the
    two keys of "ab", the samples never change, yet the loop counts one
    update, not zero. *)
Lemma monitor_unchanging_output_counted :
  fst (run (typing_loop_samples (js "ab") 0 monitor_init)
         (env_scripted [js "x"; js "x"]) []) =
    Ok ({| outputUpdates := 1; previousOutput := js "x" |}, [js "x"; js "x"]) /\
  fst (run (typing_loop (js "ab") 0 monitor_init)
         (env_scripted [js "x"; js "x"]) []) =
    Ok {| outputUpdates := 1; previousOutput := js "x" |} /\
  outputUpdates {| outputUpdates := 1; previousOutput := js "x" |} <> 0%nat.
Proof. split_and!; [vm_compute; reflexivity | vm_compute; reflexivity | discriminate]. Qed.

(** The example of the specification on a page: typing "ab" while the output
    goes from empty to "a-ish" to "ab-ish" counts two updates. *)
Example monitor_two_updates :
  fst (run (typing_loop (js "ab") 0 monitor_init)
         (env_scripted [a_ish; ab_ish]) []) =
  Ok {| outputUpdates := 2; previousOutput := ab_ish |}.
Proof. vm_compute. reflexivity. Qed.

Lemma Pos_UI_0001_results_status (expectedOutput finalOutput : jsstring)
    (updates : nat) (env : Env) (h : Trace) :
  fst (run (Pos_UI_0001_results expectedOutput updates finalOutput) env h)
    = Ok tt /\
  status_lines
    (snd (run (Pos_UI_0001_results expectedOutput updates finalOutput) env h)) =
  [if (0 <? updates)%nat && js_strict_eq finalOutput expectedOutput
   then PASS else FAIL].
Proof.
  unfold Pos_UI_0001_results.
  destruct updates, (js_strict_eq finalOutput expectedOutput);
    split; reflexivity.
Qed.


(** ** The whole UI scenario *)

Lemma typing_iteration_silent (c : N) (i : nat) (st : MonitorState)
    (env : Env) (h : Trace) :
  status_lines (snd (run (typing_iteration c i st) env h)) = [].
Proof.
  unfold typing_iteration.
  step_action.
  step_action.
  rewrite run_bind.
  match goal with
  | |- context [run getSinhalaOutput ?e ?h] =>
      pose proof (getSinhalaOutput_silent e h) as Hs;
      destruct (run getSinhalaOutput e h) as [[cur|] t]
  end; simpl in Hs; [|done].
  destruct (negb _ && _); simpl; rewrite status_lines_app, Hs; reflexivity.
Qed.

Lemma typing_loop_silent (chars : jsstring) (i : nat) (st : MonitorState)
    (env : Env) (h : Trace) :
  status_lines (snd (run (typing_loop chars i st) env h)) = [].
Proof.
  revert i st h. induction chars as [|c rest IH]; intros i st h; [done|].
  rewrite run_typing_loop_cons.
  pose proof (typing_iteration_silent c i st env h) as Hs.
  destruct (run (typing_iteration c i st) env h) as [[r|] t1]; [|done].
  specialize (IH (S i) (fst r) (h ++ t1)).
  destruct (run (typing_loop rest (S i) (fst r)) env (h ++ t1)) as [r' t2].
  simpl in *. by rewrite status_lines_app, Hs, IH.
Qed.

(** A whole run of the scenario: when it completes, the one status line it
    printed is the conjunction, for the count of the loop and the output
    sampled after the loop. *)
Lemma Pos_UI_0001_status (env : Env) (h : Trace) :
  match run Pos_UI_0001 env h with
  | (Ok _, t) =>
      exists st t1 finalOutput t2,
        run (typing_loop Pos_UI_0001_testInput 0 monitor_init) env
            (h ++ Pos_UI_0001_prelude) = (Ok st, t1) /\
        run getSinhalaOutput env
            (h ++ Pos_UI_0001_prelude ++ t1 ++ [OpWaitForTimeout 2000])
          = (Ok finalOutput, t2) /\
        verdict_passed t =
          Some ((0 <? outputUpdates st)%nat
                && js_strict_eq finalOutput Pos_UI_0001_expectedOutput)
  | (Throw, _) => True
  end.
Proof.
  unfold Pos_UI_0001, waitForTranslation.
  step_action.
  rewrite run_console_bind. step_action.
  step_action.
  rewrite !run_console_bind, run_bind.
  repeat rewrite <- (app_assoc h). cbn [app].
  fold monitor_init. fold Pos_UI_0001_prelude.
  pose proof (typing_loop_silent Pos_UI_0001_testInput 0 monitor_init env
                (h ++ Pos_UI_0001_prelude)) as S1.
  destruct (run (typing_loop Pos_UI_0001_testInput 0 monitor_init) env
              (h ++ Pos_UI_0001_prelude)) as [[st|] t1]; [|done].
  simpl in S1.
  step_action.
  rewrite run_bind.
  repeat rewrite <- (app_assoc h).
  match goal with
  | |- context [run getSinhalaOutput ?e ?hh] =>
      pose proof (getSinhalaOutput_silent e hh) as S2;
      destruct (run getSinhalaOutput e hh) as [[finalOutput|] t2] eqn:E2
  end; [|done].
  simpl in S2.
  step_action.
  rewrite run_bind.
  match goal with
  | |- context [run (Pos_UI_0001_results ?a ?b ?c) ?e ?hh] =>
      pose proof (Pos_UI_0001_results_status a c b e hh) as [V1 V2];
      destruct (run (Pos_UI_0001_results a b c) e hh) as [rv tv]
  end.
  simpl in V1, V2. subst rv.
  unfold run at 1, action.
  destruct (env_action _ _ (OpWaitForTimeout 3000)); [|done].
  exists st, t1, finalOutput, t2. split_and!; [done|done|].
  unfold verdict_passed.
  match goal with
  | |- context [status_lines ?l] =>
      change l with
        (Pos_UI_0001_prelude ++ t1 ++ [OpWaitForTimeout 2000] ++ t2
           ++ [OpScreenshot (js "test-results/Pos_UI_0001_final.png") true]
           ++ tv ++ [OpWaitForTimeout 3000])
  end.
  rewrite !status_lines_app, S1, S2, V2.
  by destruct (_ && _).
Qed.

(** C8.  The verdict of the UI scenario is a conjunction: it prints PASS
    exactly when [outputUpdates > 0] and the final output equals the expected
    output.  With no update counted the verdict is FAIL even when the final
    output is the expected one.  In every whole run of the scenario that
    completes, the verdict is this conjunction for the count of the loop and
    the output sampled after the loop. *)
Theorem ui_verdict_is_conjunction :
  (forall (expectedOutput finalOutput : jsstring) (updates : nat)
          (env : Env) (h : Trace),
     exists passed,
       verdict_passed
         (snd (run (Pos_UI_0001_results expectedOutput updates finalOutput)
                 env h)) = Some passed /\
       (passed = true <->
          (0 < updates)%nat /\ finalOutput = expectedOutput)) /\
  (forall (expectedOutput : jsstring) (env : Env) (h : Trace),
     verdict_passed
       (snd (run (Pos_UI_0001_results expectedOutput 0 expectedOutput) env h))
     = Some false) /\
  (forall (env : Env) (h : Trace),
     match run Pos_UI_0001 env h with
     | (Ok _, t) =>
         exists st t1 finalOutput t2,
           run (typing_loop Pos_UI_0001_testInput 0 monitor_init) env
               (h ++ Pos_UI_0001_prelude) = (Ok st, t1) /\
           run getSinhalaOutput env
               (h ++ Pos_UI_0001_prelude ++ t1 ++ [OpWaitForTimeout 2000])
             = (Ok finalOutput, t2) /\
           verdict_passed t =
             Some ((0 <? outputUpdates st)%nat
                   && js_strict_eq finalOutput Pos_UI_0001_expectedOutput)
     | (Throw, _) => True
     end).
Proof.
  split_and!.
  - intros expectedOutput finalOutput updates env h.
    destruct (Pos_UI_0001_results_status expectedOutput finalOutput updates
                env h) as [_ V].
    unfold verdict_passed. rewrite V. eexists. split; [reflexivity|].
    rewrite <- js_strict_eq_true, <- Nat.ltb_lt, <- andb_true_iff.
    by destruct (_ && _).
  - intros expectedOutput env h.
    destruct (Pos_UI_0001_results_status expectedOutput expectedOutput 0
                env h) as [_ V].
    unfold verdict_passed. by rewrite V.
  - apply Pos_UI_0001_status.
Qed.

Lemma ui_verdict_is_conjunction_witness :
  verdict_passed
    (snd (run (Pos_UI_0001_results (js "full-translation") 0
                 (js "full-translation")) env_dead [])) = Some false.
Proof.
  exact (proj1 (proj2 ui_verdict_is_conjunction)
           (js "full-translation") env_dead []).
Defined.

(** The scenario on two pages.  On a page that follows the typing and ends
    on the expected text, the verdict is PASS.  On a page that shows the
    expected text from the start, one update is counted, at the first key,
    and the verdict is PASS as well. *)
Example Pos_UI_0001_on_pages :
  verdict_passed
    (snd (run Pos_UI_0001
            (env_scripted (replicate 20 (js "typing") ++
                           replicate 5 Pos_UI_0001_expectedOutput)) []))
    = Some true /\
  verdict_passed
    (snd (run Pos_UI_0001
            (env_static [Pos_UI_0001_expectedOutput] [] None) []))
    = Some true /\
  verdict_passed
    (snd (run Pos_UI_0001 (env_static [] [] (Some [])) []))
    = Some false.
Proof. split_and!; vm_compute; reflexivity. Qed.

(** * Further properties of the harness *)

(** ** The extractor: degradation, trimmed results, read-only calls *)

(** X1.  Degradation.  When tiers 1 and 2 find nothing (they fall through
    or raise) and the body text, if the page gives one, has no code unit of
    the Sinhala range, [getSinhalaOutput] returns the empty string: a match
    of white space alone is trimmed away, and a missing body text or a
    rejected read counts as no match. *)
Theorem extractor_degrades_to_empty (env : Env) (h : Trace)
    (r1 r2 : result (option jsstring)) (t1 t2 : Trace) :
  run tier1 env h = (r1, t1) -> finds_nothing r1 ->
  run tier2 env (h ++ t1) = (r2, t2) -> finds_nothing r2 ->
  (forall body,
     env_textContent env ((h ++ t1) ++ t2) body_loc = Ok (Some body) ->
     Forall (fun c => is_sinhala c = false) body) ->
  run getSinhalaOutput env h = (Ok [], t1 ++ t2 ++ [tier3_call]).
Proof.
  intros E1 N1%found_nothing E2 N2%found_nothing Hbody.
  rewrite getSinhalaOutput_chain, E1, N1, E2, N2, run_tier3.
  destruct (env_textContent env ((h ++ t1) ++ t2) body_loc) as [[body|]|];
    [|done|done].
  destruct (js_match sinhala_space_regex body) as [m0|] eqn:Hm; [|done].
  simpl found.
  by rewrite (js_trim_whitespace m0
                (js_match_without_sinhala _ _ (Hbody body eq_refl) Hm)).
Qed.

Lemma extractor_degrades_to_empty_witness :
  run getSinhalaOutput
      (env_static [] [js "in"] (Some (js "Swift Translator 2026"))) [] =
    (Ok [], [OpAll sel1] ++ [tier2_call] ++ [tier3_call]).
Proof.
  apply (extractor_degrades_to_empty
           (env_static [] [js "in"] (Some (js "Swift Translator 2026")))
           [] (Ok None) (Ok None) [OpAll sel1] [tier2_call]).
  - reflexivity.
  - left. reflexivity.
  - reflexivity.
  - left. reflexivity.
  - intros body [= <-]. repeat constructor.
Defined.

(** A text is clean at its start when it is empty or its first code unit is
    not white space. *)
Lemma drop_while_head (p : N -> bool) (s : jsstring) :
  match drop_while p s with [] => True | c :: _ => p c = false end.
Proof.
  induction s as [|c s IH]; simpl; [done|].
  destruct (p c) eqn:E; [exact IH|exact E].
Qed.

Lemma drop_while_clean (p : N -> bool) (s : jsstring) :
  match s with [] => True | c :: _ => p c = false end ->
  drop_while p s = s.
Proof. destruct s as [|c s]; simpl; [done|]. by intros ->. Qed.

Lemma head_app_clean (p : N -> bool) (l1 l2 : jsstring) :
  match l1 ++ l2 with [] => True | c :: _ => p c = false end ->
  match l1 with [] => True | c :: _ => p c = false end.
Proof. by destruct l1. Qed.

(** Both ends of a trimmed text are clean. *)
Lemma js_trim_ends (s : jsstring) :
  match js_trim s with [] => True | c :: _ => is_js_whitespace c = false end /\
  match rev (js_trim s) with [] => True | c :: _ => is_js_whitespace c = false end.
Proof.
  unfold js_trim.
  set (d := drop_while is_js_whitespace s).
  pose proof (drop_while_head is_js_whitespace s) as Hd. fold d in Hd.
  pose proof (drop_while_head is_js_whitespace (rev d)) as He.
  destruct (drop_while_suffix is_js_whitespace (rev d)) as [pre Hsplit].
  set (e := drop_while is_js_whitespace (rev d)) in *.
  split; [|by rewrite rev_involutive].
  apply (head_app_clean is_js_whitespace (rev e) (rev pre)).
  rewrite <- rev_app_distr, <- Hsplit, rev_involutive. exact Hd.
Qed.

Lemma js_trim_clean (s : jsstring) :
  match s with [] => True | c :: _ => is_js_whitespace c = false end ->
  match rev s with [] => True | c :: _ => is_js_whitespace c = false end ->
  js_trim s = s.
Proof.
  intros H1 H2. unfold js_trim.
  rewrite (drop_while_clean _ s H1), (drop_while_clean _ (rev s) H2).
  apply rev_involutive.
Qed.

Lemma js_trim_idempotent (s : jsstring) : js_trim (js_trim s) = js_trim s.
Proof. destruct (js_trim_ends s). by apply js_trim_clean. Qed.

(** Trimming keeps a stretch of the text. *)
Lemma js_trim_stretch (s : jsstring) :
  exists pre post, s = pre ++ js_trim s ++ post.
Proof.
  unfold js_trim.
  destruct (drop_while_suffix is_js_whitespace s) as [pre Hs].
  set (d := drop_while is_js_whitespace s) in *.
  destruct (drop_while_suffix is_js_whitespace (rev d)) as [pre' Hd].
  set (e := drop_while is_js_whitespace (rev d)) in *.
  exists pre, (rev pre').
  rewrite <- rev_app_distr, <- Hd, rev_involutive. exact Hs.
Qed.

(** What a tier returns is a trimmed text. *)
Lemma tier_found_trimmed (env : Env) (h : Trace) (s : jsstring) :
  found (fst (run tier1 env h)) = Some s \/
  found (fst (run tier2 env h)) = Some s \/
  found (fst (run tier3 env h)) = Some s ->
  exists x, s = js_trim x.
Proof.
  rewrite run_tier1, run_tier2, run_tier3.
  intros [H|[H|H]].
  - destruct (env_count env h sel1) as [[|n]|]; try done.
    destruct (env_textContent _ _ (LocNth sel1 n)) as [[x|]|]; try done.
    simpl in H. exists x. congruence.
  - destruct (env_count env h sel2) as [[|[|n]]|]; try done.
    destruct (env_inputValue _ _ _) as [x|]; try done.
    simpl in H. exists x. congruence.
  - destruct (env_textContent env h body_loc) as [[b|]|]; try done.
    destruct (js_match sinhala_space_regex b) as [x|]; try done.
    simpl in H. exists x. congruence.
Qed.

(** The text the extractor returns is trimmed. *)
Lemma extractor_result_trimmed (env : Env) (h : Trace) :
  exists s t,
    run getSinhalaOutput env h = (Ok s, t) /\
    js_trim s = s /\
    (forall c, head s = Some c -> is_js_whitespace c = false) /\
    (forall c, head (rev s) = Some c -> is_js_whitespace c = false).
Proof.
  assert (exists s t, run getSinhalaOutput env h = (Ok s, t) /\
                      (s = [] \/ exists x, s = js_trim x)) as (s & t & E & Hs).
  { rewrite getSinhalaOutput_chain.
    pose proof (tier_found_trimmed env h) as T1.
    destruct (run tier1 env h) as [r1 t1]. simpl in T1.
    destruct (found r1) as [s1|]; [eauto 10|].
    pose proof (tier_found_trimmed env (h ++ t1)) as T2.
    destruct (run tier2 env (h ++ t1)) as [r2 t2]. simpl in T2.
    destruct (found r2) as [s2|]; [eauto 10|].
    pose proof (tier_found_trimmed env ((h ++ t1) ++ t2)) as T3.
    destruct (run tier3 env ((h ++ t1) ++ t2)) as [r3 t3]. simpl in T3.
    destruct (found r3) as [s3|]; eauto 10. }
  exists s, t. split; [exact E|].
  assert (js_trim s = s) as Htrim.
  { destruct Hs as [->|[x ->]]; [done|apply js_trim_idempotent]. }
  split; [exact Htrim|].
  destruct (js_trim_ends s) as [H1 H2]. rewrite Htrim in H1, H2.
  split.
  - intros c Hc. destruct s as [|c' s']; simplify_eq/=. exact H1.
  - intros c Hc.
    destruct (rev s) as [|c' s']; simplify_eq/=. exact H2.
Qed.

(** The shape of the trace of a run of the extractor. *)
Lemma getSinhalaOutput_trace (env : Env) (h : Trace) :
  exists t1 t2 t3,
    snd (run getSinhalaOutput env h) = t1 ++ t2 ++ t3 /\
    (t1 = [OpAll sel1] \/
     exists n, t1 = [OpAll sel1; OpTextContent (LocNth sel1 n)]) /\
    (t2 = [] \/ t2 = [tier2_call] \/
     t2 = [tier2_call; OpInputValue (LocNth sel2 1)]) /\
    (t3 = [] \/ t3 = [tier3_call]).
Proof.
  rewrite getSinhalaOutput_chain.
  pose proof (tier1_trace env h) as A1.
  destruct (run tier1 env h) as [r1 t1]; simpl in A1.
  exists t1.
  destruct (found r1).
  { exists [], []. rewrite !app_nil_r. eauto 10. }
  pose proof (tier2_trace env (h ++ t1)) as A2.
  destruct (run tier2 env (h ++ t1)) as [r2 t2]; simpl in A2.
  exists t2.
  destruct (found r2).
  { exists []. rewrite !app_nil_r. split_and!; [done|done|tauto|by left]. }
  pose proof (tier3_trace env ((h ++ t1) ++ t2)) as A3.
  destruct (run tier3 env ((h ++ t1) ++ t2)) as [r3 t3]; simpl in A3.
  exists t3. subst t3.
  destruct (found r3); (split_and!; [done|done|tauto|by right]).
Qed.

(** The calls of a run of the extractor. *)
Lemma extractor_trace_queries (env : Env) (h : Trace) :
  Forall (fun op => is_query op = true) (snd (run getSinhalaOutput env h)) /\
  head (snd (run getSinhalaOutput env h)) = Some (OpAll (SelText sinhala_regex)) /\
  (length (snd (run getSinhalaOutput env h)) <= 5)%nat /\
  keys_sent (snd (run getSinhalaOutput env h)) = [] /\
  status_lines (snd (run getSinhalaOutput env h)) = [].
Proof.
  destruct (getSinhalaOutput_trace env h)
    as (t1 & t2 & t3 & -> & H1 & H2 & H3).
  destruct H1 as [->|[n ->]], H2 as [->|[->| ->]], H3 as [->| ->];
    (split_and!; [repeat constructor|reflexivity|simpl; lia
                 |reflexivity|reflexivity]).
Qed.

Lemma Forall_stretch {A} (P : A -> Prop) (pre s post : list A) :
  Forall P (pre ++ s ++ post) -> Forall P s.
Proof.
  intros H. apply Forall_app in H as [_ H].
  by apply Forall_app in H as [H _].
Qed.

(** X4.  What tier 3 can return.  When tiers 1 and 2 find nothing and the
    body has a text, the result is a stretch of that text made only of
    Sinhala and white space code units.  So it differs from every expected
    output that contains any other code unit (a full stop, a digit, a Latin
    letter). *)
Theorem tier3_result_is_sinhala_stretch (env : Env) (h : Trace)
    (r1 r2 : result (option jsstring)) (t1 t2 : Trace) (body : jsstring) :
  run tier1 env h = (r1, t1) -> finds_nothing r1 ->
  run tier2 env (h ++ t1) = (r2, t2) -> finds_nothing r2 ->
  env_textContent env ((h ++ t1) ++ t2) body_loc = Ok (Some body) ->
  exists s,
    run getSinhalaOutput env h = (Ok s, t1 ++ t2 ++ [tier3_call]) /\
    (exists pre post, body = pre ++ s ++ post) /\
    Forall (fun c => is_sinhala c = true \/ is_js_whitespace c = true) s /\
    (forall (expectedOutput : jsstring) (c : N),
       c ∈ expectedOutput ->
       is_sinhala c = false -> is_js_whitespace c = false ->
       s <> expectedOutput).
Proof.
  intros E1 N1%found_nothing E2 N2%found_nothing Hb.
  assert (exists s,
            run getSinhalaOutput env h = (Ok s, t1 ++ t2 ++ [tier3_call]) /\
            (exists pre post, body = pre ++ s ++ post) /\
            Forall (fun c => class_accepts sinhala_space_class c = true) s)
    as (s & E & Hstretch & Hall).
  { rewrite getSinhalaOutput_chain, E1, N1, E2, N2, run_tier3, Hb.
    destruct (js_match sinhala_space_regex body) as [m0|] eqn:Hm; simpl found.
    - apply js_match_stretch in Hm as [(pre & post & ->) Hacc].
      destruct (js_trim_stretch m0) as (a & b & Hm0).
      exists (js_trim m0). split_and!; [done| |].
      + exists (pre ++ a), (b ++ post).
        rewrite Hm0 at 1. by rewrite <- !app_assoc.
      + rewrite Hm0 in Hacc. by apply Forall_stretch in Hacc.
    - exists []. split_and!; [done| |constructor].
      exists [], body. done. }
  exists s. split_and!; [done|done| |].
  - eapply Forall_impl; [|exact Hall]. intros c Hc. cbv beta in Hc.
    rewrite sinhala_space_class_accepts in Hc. by apply orb_true_iff.
  - intros expectedOutput c Hin Hs Hw <-.
    rewrite Forall_forall in Hall. apply list_elem_of_In in Hin.
    specialize (Hall c Hin). cbv beta in Hall.
    rewrite sinhala_space_class_accepts, Hs, Hw in Hall. discriminate.
Qed.

Lemma tier3_result_is_sinhala_stretch_witness :
  exists s,
    run getSinhalaOutput
        (env_static [] [js "in"] (Some (js "Output:" ++ Pos_Fun_0001_expected)))
        [] = (Ok s, [OpAll sel1] ++ [tier2_call] ++ [tier3_call]) /\
    (exists pre post, js "Output:" ++ Pos_Fun_0001_expected = pre ++ s ++ post) /\
    Forall (fun c => is_sinhala c = true \/ is_js_whitespace c = true) s /\
    (forall (expectedOutput : jsstring) (c : N),
       c ∈ expectedOutput ->
       is_sinhala c = false -> is_js_whitespace c = false ->
       s <> expectedOutput).
Proof.
  apply (tier3_result_is_sinhala_stretch
           (env_static [] [js "in"] (Some (js "Output:" ++ Pos_Fun_0001_expected)))
           [] (Ok None) (Ok None) [OpAll sel1] [tier2_call]
           (js "Output:" ++ Pos_Fun_0001_expected)).
  - reflexivity.
  - left. reflexivity.
  - reflexivity.
  - left. reflexivity.
  - reflexivity.
Defined.

(** ** translateText and runTest: what they call and when they throw *)

Lemma threw_at_action_shift (env : Env) (h pre t : Trace) :
  threw_at_action env (h ++ pre) t -> threw_at_action env h (pre ++ t).
Proof.
  intros (before & op & -> & Hop).
  exists (pre ++ before), op. split; [by rewrite app_assoc|].
  by rewrite app_assoc.
Qed.

Lemma threw_at_action_here (env : Env) (h : Trace) (op : Op) :
  env_action env h op = Throw -> threw_at_action env h [op].
Proof. intros Hop. exists [], op. by rewrite app_nil_r. Qed.

Lemma run_action_cases {B} (op : Op) (k : M B) (env : Env) (h : Trace)
    (P : result B * Trace -> Prop) :
  (env_action env h op = Throw -> P (Throw, [op])) ->
  (env_action env h op = Ok tt ->
   P (let '(r, t) := run k env (h ++ [op]) in (r, op :: t))) ->
  P (run (action op;; k) env h).
Proof.
  intros HT HO. rewrite run_action_bind.
  destruct (env_action env h op) as [[]|]; auto.
Qed.

(** A whole run of [translateText]. *)
Lemma translateText_run (input : jsstring) (env : Env) (h : Trace) :
  match run (translateText input) env h with
  | (Ok s, t) =>
      exists q,
        t = translate_actions input ++ q /\
        run getSinhalaOutput env (h ++ translate_actions input) = (Ok s, q) /\
        Forall (fun op => is_query op = true) q /\
        js_trim s = s
  | (Throw, t) =>
      threw_at_action env h t /\
      t `prefix_of` translate_actions input
  end.
Proof.
  unfold translateText, waitForTranslation, waitForTranslation_default.
  apply run_action_cases; intros E1.
  { split; [by apply threw_at_action_here|]. by eexists. }
  apply run_action_cases; intros E2.
  { split; [|by eexists].
    apply (threw_at_action_shift env h [_] [_]).
    by apply threw_at_action_here. }
  apply run_action_cases; intros E3.
  { split; [|by eexists].
    apply (threw_at_action_shift env h [_] [_; _]).
    apply (threw_at_action_shift env _ [_] [_]).
    by apply threw_at_action_here. }
  unfold action at 1. rewrite run_bind. unfold run at 1.
  destruct (env_action _ _ (OpWaitForTimeout 4000)) as [[]|] eqn:E4.
  2:{ split; [|by eexists].
      apply (threw_at_action_shift env h [_] [_; _; _]).
      apply (threw_at_action_shift env _ [_] [_; _]).
      apply (threw_at_action_shift env _ [_] [_]).
      by apply threw_at_action_here. }
  repeat rewrite <- (app_assoc h). cbn [app].
  fold (translate_actions input).
  destruct (extractor_result_trimmed env (h ++ translate_actions input))
    as (s & q & Eq & Htrim & _).
  pose proof (extractor_trace_queries env (h ++ translate_actions input))
    as [Hq _].
  rewrite Eq in *. simpl in Hq.
  exists q. done.
Qed.

Lemma screenshots_app (t1 t2 : Trace) :
  screenshots (t1 ++ t2) = screenshots t1 ++ screenshots t2.
Proof. apply omap_app. Qed.

Lemma screenshots_queries (q : Trace) :
  Forall (fun op => is_query op = true) q -> screenshots q = [].
Proof.
  induction 1 as [|op q Hop _ IH]; [done|].
  destruct op; try discriminate; exact IH.
Qed.

Lemma status_lines_queries (q : Trace) :
  Forall (fun op => is_query op = true) q -> status_lines q = [].
Proof.
  induction 1 as [|op q Hop _ IH]; [done|].
  destruct op; try discriminate; exact IH.
Qed.

Lemma runTest_verdict_run (testId input expectedOutput actualOutput : jsstring)
    (isNegative : bool) (env : Env) (h : Trace) :
  exists tv,
    run (runTest_verdict testId input expectedOutput isNegative actualOutput)
      env h = (Ok tt, tv) /\
    status_lines tv =
      [runTest_status_line expectedOutput isNegative actualOutput] /\
    screenshots tv = [].
Proof.
  unfold runTest_verdict, runTest_status_line.
  destruct isNegative, (js_strict_eq actualOutput expectedOutput);
    eexists; split_and!; reflexivity.
Qed.

(** A whole run of [runTest]. *)
Lemma runTest_run (testId input expectedOutput : jsstring) (isNegative : bool)
    (env : Env) (h : Trace) :
  match run (runTest testId input expectedOutput isNegative) env h with
  | (Ok actualOutput, t) =>
      js_trim actualOutput = actualOutput /\
      status_lines t =
        [runTest_status_line expectedOutput isNegative actualOutput] /\
      screenshots t = [(screenshot_path testId, false)] /\
      head (rev t) = Some (OpScreenshot (screenshot_path testId) false)
  | (Throw, t) => threw_at_action env h t
  end.
Proof.
  unfold runTest.
  rewrite run_console_bind.
  set (c0 := OpConsole Log [LF ++ testId ++ js ": Opening new browser..."]).
  rewrite run_action_bind.
  destruct (env_action env (h ++ [c0]) (OpGoto WEBSITE_URL)) as [[]|] eqn:Eg.
  2:{ apply (threw_at_action_shift env h [c0] [_]).
      by apply threw_at_action_here. }
  rewrite run_console_bind.
  set (c1 := OpConsole Log [LF ++ testId ++ js ": Starting test..."]).
  rewrite run_bind.
  set (h1 := ((h ++ [c0]) ++ [OpGoto WEBSITE_URL]) ++ [c1]).
  pose proof (translateText_run input env h1) as T.
  destruct (run (translateText input) env h1) as [[actualOutput|] tt_].
  2:{ destruct T as [T _].
      apply (threw_at_action_shift env h [c0; OpGoto WEBSITE_URL; c1]).
      unfold h1 in T. by rewrite <- !app_assoc in T. }
  destruct T as (q & -> & _ & Hq & Htrim).
  rewrite run_bind.
  destruct (runTest_verdict_run testId input expectedOutput actualOutput
              isNegative env (h1 ++ translate_actions input ++ q))
    as (tv & -> & Sv & Pv).
  fold (screenshot_path testId).
  rewrite run_action_bind.
  destruct (env_action _ _ (OpScreenshot _ _)) as [[]|] eqn:Es.
  - cbn [app]. split_and!.
    + exact Htrim.
    + change (c0 :: OpGoto WEBSITE_URL :: c1 :: ?x)
        with ([c0; OpGoto WEBSITE_URL; c1] ++ x).
      rewrite !status_lines_app, (status_lines_queries q Hq), Sv.
      reflexivity.
    + change (c0 :: OpGoto WEBSITE_URL :: c1 :: ?x)
        with ([c0; OpGoto WEBSITE_URL; c1] ++ x).
      rewrite !screenshots_app, (screenshots_queries q Hq), Pv.
      reflexivity.
    + change (c0 :: OpGoto WEBSITE_URL :: c1 :: ?x)
        with ([c0; OpGoto WEBSITE_URL; c1] ++ x).
      rewrite !app_assoc, rev_app_distr. reflexivity.
  - cbn [app].
    change (c0 :: OpGoto WEBSITE_URL :: c1 :: ?x)
      with ([c0; OpGoto WEBSITE_URL; c1] ++ x).
    rewrite !app_assoc.
    eexists _, _. split; [reflexivity|].
    rewrite <- Es. f_equal. unfold h1. by rewrite <- !app_assoc.
Qed.

Lemma says_PASS_status_line (expectedOutput actualOutput : jsstring)
    (isNegative : bool) :
  says_PASS (runTest_status_line expectedOutput isNegative actualOutput) =
  if isNegative then negb (js_strict_eq actualOutput expectedOutput)
  else js_strict_eq actualOutput expectedOutput.
Proof.
  unfold runTest_status_line.
  by destruct isNegative, (js_strict_eq actualOutput expectedOutput).
Qed.

(** X6.  A mismatch is not an error.  [runTest] throws only when a page
    action (the navigation, one of the actions of [translateText], the
    screenshot) rejects, and that action is then its last call.  When it
    returns, it has printed the verdict and it returns the extracted text,
    whether the verdict is PASS or FAIL; on a page whose actions all resolve
    it always returns. *)
Theorem runTest_mismatch_is_not_an_error (testId input expectedOutput : jsstring)
    (isNegative : bool) (env : Env) (h : Trace) :
  match run (runTest testId input expectedOutput isNegative) env h with
  | (Ok actualOutput, t) =>
      verdict_passed t =
        Some (if isNegative
              then negb (js_strict_eq actualOutput expectedOutput)
              else js_strict_eq actualOutput expectedOutput)
  | (Throw, t) => threw_at_action env h t
  end /\
  ((forall h' op, env_action env h' op = Ok tt) ->
   exists actualOutput t,
     run (runTest testId input expectedOutput isNegative) env h
       = (Ok actualOutput, t)).
Proof.
  pose proof (runTest_run testId input expectedOutput isNegative env h) as R.
  destruct (run (runTest testId input expectedOutput isNegative) env h)
    as [[actualOutput|] t].
  - destruct R as (_ & S & _). split; [|eauto].
    unfold verdict_passed. rewrite S. f_equal. apply says_PASS_status_line.
  - split; [exact R|]. intros Hall.
    destruct R as (before & op & _ & Hop).
    rewrite Hall in Hop. discriminate.
Qed.

Lemma runTest_mismatch_is_not_an_error_witness :
  exists actualOutput t,
    run (runTest (js "Pos_Fun_0011") (js "api yamu.") (js "expected") false)
      (env_static [js "something else"] [] None) [] = (Ok actualOutput, t).
Proof.
  apply (proj2 (runTest_mismatch_is_not_an_error
                  (js "Pos_Fun_0011") (js "api yamu.") (js "expected") false
                  (env_static [js "something else"] [] None) [])).
  reflexivity.
Defined.

(** X7.  The actual output is trimmed and the expected output is compared
    as it is.  So a case whose expected output starts or ends with white
    space never matches: in positive mode its verdict is always FAIL, in
    negative mode always PASS. *)
Theorem untrimmed_expectation_never_matches (testId input expectedOutput : jsstring)
    (isNegative : bool) (env : Env) (h : Trace) :
  js_trim expectedOutput <> expectedOutput ->
  match run (runTest testId input expectedOutput isNegative) env h with
  | (Ok actualOutput, t) =>
      actualOutput <> expectedOutput /\ verdict_passed t = Some isNegative
  | (Throw, _) => True
  end.
Proof.
  intros Hexp.
  pose proof (runTest_run testId input expectedOutput isNegative env h) as R.
  destruct (run (runTest testId input expectedOutput isNegative) env h)
    as [[actualOutput|] t]; [|done].
  destruct R as (Htrim & S & _).
  assert (actualOutput <> expectedOutput) as Hne by congruence.
  split; [exact Hne|].
  unfold verdict_passed. rewrite S, says_PASS_status_line.
  apply js_strict_eq_false in Hne. rewrite Hne. by destruct isNegative.
Qed.

Lemma untrimmed_expectation_never_matches_witness :
  match run (runTest (js "T") (js "in") (js "x ") false)
          (env_static [js "x "] [] None) [] with
  | (Ok actualOutput, t) =>
      actualOutput <> js "x " /\ verdict_passed t = Some false
  | (Throw, _) => True
  end.
Proof.
  apply (untrimmed_expectation_never_matches (js "T") (js "in") (js "x ") false
           (env_static [js "x "] [] None) []).
  discriminate.
Defined.

Lemma js_replace_class_map (cls : CharClass) (r : N) (s : jsstring) :
  js_replace_class cls [r] s =
  map (fun c => if class_accepts cls c then r else c) s.
Proof.
  unfold js_replace_class.
  induction s as [|c s IH]; [done|].
  simpl. rewrite IH. by destruct (class_accepts cls c).
Qed.

Lemma path_separators_accepts (c : N) :
  class_accepts path_separators c = is_path_separator c.
Proof.
  unfold class_accepts, path_separators, is_path_separator. simpl.
  rewrite orb_false_r.
  destruct (N.eqb_spec c 0x003A) as [->|H1]; [done|].
  destruct (N.eqb_spec c 0x002F) as [->|H2]; [done|].
  simpl.
  assert ((58 <=? c) && (c <=? 58) = false) as ->
    by (apply andb_false_iff; rewrite !N.leb_gt; lia).
  apply andb_false_iff; rewrite !N.leb_gt; lia.
Qed.

(** X8.  The screenshot of a test.  The file name is the test id with every
    colon and every slash replaced by an underscore, unit for unit, so no
    separator is left in it and the file lies in [test-results/] itself.  A
    run of [runTest] that returns took exactly one screenshot, to that path,
    of the viewport only, as its last call. *)
Theorem screenshot_path_sanitized (testId : jsstring) :
  screenshot_path testId =
    js "test-results/"
      ++ map (fun c => if is_path_separator c then 0x005F else c) testId
      ++ js ".png" /\
  Forall (fun c => is_path_separator c = false)
    (map (fun c => if is_path_separator c then 0x005F else c) testId) /\
  (forall (input expectedOutput : jsstring) (isNegative : bool)
          (env : Env) (h : Trace),
     match run (runTest testId input expectedOutput isNegative) env h with
     | (Ok _, t) =>
         screenshots t = [(screenshot_path testId, false)] /\
         head (rev t) = Some (OpScreenshot (screenshot_path testId) false)
     | (Throw, _) => True
     end).
Proof.
  split_and!.
  - unfold screenshot_path.
    change (js "_") with [0x005F]. rewrite js_replace_class_map.
    do 2 f_equal. apply map_ext. intros c.
    by rewrite path_separators_accepts.
  - apply Forall_forall. intros c [x [<- _]]%in_map_iff.
    destruct (is_path_separator x) eqn:E; [reflexivity|exact E].
  - intros input expectedOutput isNegative env h.
    pose proof (runTest_run testId input expectedOutput isNegative env h) as R.
    destruct (run (runTest testId input expectedOutput isNegative) env h)
      as [[actualOutput|] t]; [|done].
    by destruct R as (_ & _ & P & L).
Qed.

(** ** The typing loop: bounds and what the count means *)

Lemma spec_count_step_cases (st : MonitorState) (sample : jsstring) :
  (sample <> previousOutput st /\ sample <> [] /\
   spec_count_step st sample =
     {| outputUpdates := outputUpdates st + 1; previousOutput := sample |}) \/
  ((sample = previousOutput st \/ sample = []) /\
   spec_count_step st sample = st).
Proof.
  unfold spec_count_step.
  destruct (decide (sample <> previousOutput st /\ sample <> [])) as [[H1 H2]|H].
  - left. done.
  - right. split; [|done].
    destruct (decide (sample = previousOutput st)); [by left|].
    destruct (decide (sample = [])); [by right|]. tauto.
Qed.

Lemma foldl_snoc {A B} (f : A -> B -> A) (a : A) (l : list B) (x : B) :
  foldl f a (l ++ [x]) = f (foldl f a l) x.
Proof. revert a. induction l as [|y l IH]; intros a; simpl; [done|apply IH]. Qed.

Lemma nonempty_samples_snoc (samples : list jsstring) (s : jsstring) :
  nonempty_samples (samples ++ [s]) =
  nonempty_samples samples ++ (if (0 <? js_length s)%nat then [s] else []).
Proof. unfold nonempty_samples. by rewrite List.filter_app. Qed.

(** The variables of the loop after any samples. *)
Lemma monitor_invariants (samples : list jsstring) :
  let st := spec_monitor samples in
  (outputUpdates st <= length samples)%nat /\
  (outputUpdates st = 0%nat <-> previousOutput st = []) /\
  (outputUpdates st = 0%nat <-> Forall (fun s => s = []) samples) /\
  previousOutput st = default [] (head (rev (nonempty_samples samples))).
Proof.
  cbv zeta. unfold spec_monitor.
  induction samples as [|s samples IH] using rev_ind.
  - simpl. split_and!; done.
  - destruct IH as (Hle & Hzero & Hall & Hprev).
    rewrite foldl_snoc, length_app, nonempty_samples_snoc, rev_app_distr,
      Forall_app, Forall_singleton.
    set (st := foldl spec_count_step monitor_init samples) in *.
    destruct (spec_count_step_cases st s) as [(Hd & Hn & ->)|([He|He] & ->)].
    + simpl. destruct s as [|c s]; [done|]. simpl.
      split_and!; [lia| split; [lia|done] | split; [lia|] | done].
      intros [_ ?]. done.
    + (* the sample repeats the last counted output *)
      split_and!; [simpl; lia|exact Hzero| |].
      * rewrite Hall. split; [|tauto].
        intros Hs. split; [exact Hs|].
        rewrite He. apply Hzero, Hall, Hs.
      * destruct s as [|c s]; simpl; [exact Hprev|by rewrite <- He].
    + subst s. simpl.
      split_and!; [lia|exact Hzero| |exact Hprev].
      rewrite Hall. tauto.
Qed.

Lemma foldl_count_nonempty (samples : list jsstring) (st : MonitorState) :
  foldl spec_count_step st samples =
  foldl spec_count_step st (nonempty_samples samples).
Proof.
  revert st. induction samples as [|s samples IH]; intros st; [done|].
  destruct s as [|c s]; simpl.
  - rewrite <- IH. f_equal.
    unfold spec_count_step. rewrite decide_False by tauto. done.
  - apply IH.
Qed.

(** The loop run with its samples, read from [typing_loop]. *)
Lemma typing_loop_returns (input : jsstring) (env : Env) (h : Trace)
    (st : MonitorState) (t : Trace) :
  run (typing_loop input 0 monitor_init) env h = (Ok st, t) ->
  exists samples,
    run (typing_loop_samples input 0 monitor_init) env h = (Ok (st, samples), t) /\
    length samples = length input /\
    st = spec_monitor samples.
Proof.
  intros E.
  pose proof (typing_loop_counts input 0 monitor_init env h) as C.
  destruct (run (typing_loop_samples input 0 monitor_init) env h)
    as [[[st' samples]|] t'].
  - destruct C as (E' & Hlen & Hst). rewrite E in E'. simplify_eq.
    exists samples. done.
  - rewrite E in C. discriminate.
Qed.

(** X9.  When the typing loop completes, [outputUpdates] is at most the
    number of code units typed, and it is zero exactly when
    [previousOutput] is still the empty string. *)
Theorem typing_loop_count_bounded (input : jsstring) (env : Env) (h : Trace) :
  match run (typing_loop input 0 monitor_init) env h with
  | (Ok st, _) =>
      (outputUpdates st <= length input)%nat /\
      (outputUpdates st = 0%nat <-> previousOutput st = [])
  | (Throw, _) => True
  end.
Proof.
  destruct (run (typing_loop input 0 monitor_init) env h) as [[st|] t] eqn:E;
    [|done].
  apply typing_loop_returns in E as (samples & _ & Hlen & ->).
  destruct (monitor_invariants samples) as (Hle & Hzero & _).
  rewrite <- Hlen. done.
Qed.

(** X10.  What the count means.  When the loop completes, no update was
    counted exactly when every sampled output was empty, and
    [previousOutput] is the last sampled output that was not empty (the
    empty string when there was none). *)
Theorem typing_loop_count_meaning (input : jsstring) (env : Env) (h : Trace) :
  match run (typing_loop_samples input 0 monitor_init) env h with
  | (Ok (st, samples), t) =>
      run (typing_loop input 0 monitor_init) env h = (Ok st, t) /\
      (outputUpdates st = 0%nat <-> Forall (fun s => s = []) samples) /\
      previousOutput st = default [] (head (rev (nonempty_samples samples)))
  | (Throw, _) => True
  end.
Proof.
  pose proof (typing_loop_counts input 0 monitor_init env h) as C.
  destruct (run (typing_loop_samples input 0 monitor_init) env h)
    as [[[st samples]|] t]; [|done].
  destruct C as (E & _ & ->).
  destruct (monitor_invariants samples) as (_ & _ & Hall & Hprev).
  done.
Qed.

(** X11.  Empty samples leave no mark.  The variables the loop ends with are
    those the counting rule gives on the non-empty samples alone: an output
    that disappears and comes back unchanged is not counted again. *)
Theorem typing_loop_ignores_empty_samples (input : jsstring) (env : Env)
    (h : Trace) :
  match run (typing_loop_samples input 0 monitor_init) env h with
  | (Ok (st, samples), t) =>
      run (typing_loop input 0 monitor_init) env h = (Ok st, t) /\
      st = spec_monitor (nonempty_samples samples)
  | (Throw, _) => True
  end.
Proof.
  pose proof (typing_loop_counts input 0 monitor_init env h) as C.
  destruct (run (typing_loop_samples input 0 monitor_init) env h)
    as [[[st samples]|] t]; [|done].
  destruct C as (E & _ & ->). split; [exact E|].
  apply foldl_count_nonempty.
Qed.

(** ** The typing loop: the keys it sends *)

Lemma keys_sent_app (t1 t2 : Trace) :
  keys_sent (t1 ++ t2) = keys_sent t1 ++ keys_sent t2.
Proof. apply omap_app. Qed.

Lemma typing_iteration_keys (c : N) (i : nat) (st : MonitorState)
    (env : Env) (h : Trace) :
  keys_sent (snd (run (typing_iteration c i st) env h)) = [the_key c].
Proof.
  unfold typing_iteration.
  rewrite run_action_bind.
  destruct (env_action _ _ (OpType _ _ _)); [|done].
  rewrite run_action_bind.
  destruct (env_action _ _ (OpWaitForTimeout _)); [|done].
  rewrite run_bind.
  match goal with
  | |- context [run getSinhalaOutput ?e ?hh] =>
      pose proof (extractor_trace_queries e hh) as (_ & _ & _ & K & _);
      destruct (run getSinhalaOutput e hh) as [[cur|] t]
  end; simpl in K.
  2:{ simpl. unfold keys_sent in *. simpl. by rewrite K. }
  destruct (negb _ && _); simpl; unfold keys_sent in *; simpl;
    rewrite omap_app, K; reflexivity.
Qed.

Lemma typing_loop_keys (chars : jsstring) (i : nat) (st : MonitorState)
    (env : Env) (h : Trace) :
  match run (typing_loop chars i st) env h with
  | (Ok _, t) => keys_sent t = map the_key chars
  | (Throw, t) =>
      exists sent rest, chars = sent ++ rest /\ sent <> [] /\
                        keys_sent t = map the_key sent
  end.
Proof.
  revert i st h. induction chars as [|c rest IH]; intros i st h; [done|].
  rewrite run_typing_loop_cons.
  pose proof (typing_iteration_keys c i st env h) as K.
  destruct (run (typing_iteration c i st) env h) as [[r|] t1]; simpl in K.
  - specialize (IH (S i) (fst r) (h ++ t1)).
    destruct (run (typing_loop rest (S i) (fst r)) env (h ++ t1))
      as [[st'|] t2]; rewrite keys_sent_app, K.
    + simpl. by rewrite IH.
    + destruct IH as (sent & rest' & -> & _ & ->).
      exists (c :: sent), rest'. done.
  - exists [c], rest. done.
Qed.

(** X12.  The loop types the input one code unit at a time, in order, into
    the input field, each key with a delay of 200 ms.  When it completes,
    the keys it sent spell the whole input; when it throws, they spell a
    non-empty prefix of it. *)
Theorem typing_loop_types_the_input (input : jsstring) (env : Env) (h : Trace) :
  match run (typing_loop input 0 monitor_init) env h with
  | (Ok _, t) =>
      keys_sent t =
        map (fun c => (Loc SELECTORS_inputField, [c], 200)) input
  | (Throw, t) =>
      exists sent rest,
        input = sent ++ rest /\ sent <> [] /\
        keys_sent t =
          map (fun c => (Loc SELECTORS_inputField, [c], 200)) sent
  end.
Proof. apply typing_loop_keys. Qed.

(** ** Warnings *)

(** X13.  Warnings follow the verdict.  In positive mode [runTest] warns
    exactly when the verdict is FAIL; in negative mode it never warns, FAIL
    or not.  The UI scenario prints one warning for each condition that
    fails (no update counted, final output different), so it prints none
    exactly when the verdict is PASS. *)
Theorem warnings_follow_the_verdict :
  (forall (testId input expectedOutput actualOutput : jsstring)
          (env : Env) (h : Trace),
     let t := snd (run (runTest_verdict testId input expectedOutput false
                          actualOutput) env h) in
     (warnings t = [] <-> verdict_passed t = Some true) /\
     (length (warnings t) <= 1)%nat) /\
  (forall (testId input expectedOutput actualOutput : jsstring)
          (env : Env) (h : Trace),
     warnings (snd (run (runTest_verdict testId input expectedOutput true
                           actualOutput) env h)) = []) /\
  (forall (expectedOutput finalOutput : jsstring) (updates : nat)
          (env : Env) (h : Trace),
     let t := snd (run (Pos_UI_0001_results expectedOutput updates finalOutput)
                     env h) in
     (warnings t = [] <-> verdict_passed t = Some true) /\
     length (warnings t) =
       ((if (updates =? 0)%nat then 1 else 0) +
        (if js_strict_eq finalOutput expectedOutput then 0 else 1))%nat).
Proof.
  split_and!.
  - intros testId input expectedOutput actualOutput env h.
    unfold runTest_verdict.
    destruct (js_strict_eq actualOutput expectedOutput);
      (split; [split; intros H; first [reflexivity|discriminate H]|]);
      simpl; lia.
  - intros testId input expectedOutput actualOutput env h.
    unfold runTest_verdict.
    by destruct (js_strict_eq actualOutput expectedOutput).
  - intros expectedOutput finalOutput updates env h.
    unfold Pos_UI_0001_results.
    destruct updates, (js_strict_eq finalOutput expectedOutput);
      (split; [split; intros H; first [reflexivity|discriminate H]
              |reflexivity]).
Qed.

(** ** The run reporter *)

Section ReporterProofs.

Context {JsNumber : Type} (percentage : nat -> nat -> jsstring).

Implicit Types (testResults : list (TestResult JsNumber))
               (tests : list (TestInfo JsNumber * jsstring)).

Lemma run_forEach_console {A} (line : A -> jsstring) (arr : list A)
    (env : Env) (h : Trace) :
  run (forEach (fun x => console Log [line x]) arr) env h =
  (Ok tt, map (fun x => OpConsole Log [line x]) arr).
Proof.
  revert h. induction arr as [|x arr IH]; intros h; [done|].
  simpl forEach. rewrite run_console_bind, IH. reflexivity.
Qed.

(** What [afterAll] prints, line by line. *)
Lemma run_afterAll testResults (env : Env) (h : Trace) :
  let passed :=
    length (List.filter (fun r => js_strict_eq (status r) (js "passed"))
              testResults) in
  let failures :=
    List.filter (fun r => js_strict_eq (status r) (js "failed")) testResults in
  let total := length testResults in
  run (afterAll percentage testResults) env h =
  (Ok tt,
   [OpConsole Log [LF ++ js_repeat (js "=") 60];
    OpConsole Log [js "TEST SUMMARY REPORT"];
    OpConsole Log [js_repeat (js "=") 60];
    OpConsole Log [LF ++ js "Total Tests: " ++ js_of_nat total];
    OpConsole Log [js "Passed: " ++ js_of_nat passed ++ js " ("
                     ++ percentage passed total ++ js "%)"];
    OpConsole Log [js "Failed: " ++ js_of_nat (length failures) ++ js " ("
                     ++ percentage (length failures) total ++ js "%)"]]
   ++ (match failures with
       | [] => []
       | _ => OpConsole Log [LF ++ js "Failed Tests:"]
              :: map (fun r => OpConsole Log [js "  - " ++ testId r]) failures
       end)
   ++ [OpConsole Log [LF ++ js_repeat (js "=") 60]]).
Proof.
  cbv zeta. unfold afterAll.
  rewrite !run_console_bind, run_bind.
  destruct (List.filter (fun r => js_strict_eq (status r) (js "failed"))
              testResults) as [|r failures] eqn:F.
  - reflexivity.
  - cbn [length Nat.ltb Nat.leb].
    rewrite run_console_bind, run_forEach_console. reflexivity.
Qed.

Lemma summary_counts_le testResults :
  let passed :=
    length (List.filter (fun r => js_strict_eq (status r) (js "passed"))
              testResults) in
  let failed :=
    length (List.filter (fun r => js_strict_eq (status r) (js "failed"))
              testResults) in
  (passed + failed <= length testResults)%nat /\
  ((passed + failed = length testResults)%nat <->
   Forall (fun r => status r = js "passed" \/ status r = js "failed")
     testResults).
Proof.
  cbv zeta. induction testResults as [|r rs [IHle IHeq]].
  - split; [done|]. split; [constructor|done].
  - cbn [List.filter length].
    assert (Forall (fun r => status r = js "passed" \/ status r = js "failed")
              (r :: rs) <->
            (status r = js "passed" \/ status r = js "failed") /\
            Forall (fun r => status r = js "passed" \/ status r = js "failed")
              rs) as ->.
    { split; [intros H; by inversion H|intros [? ?]; by constructor]. }
    destruct (js_strict_eq (status r) (js "passed")) eqn:Ep.
    + apply js_strict_eq_true in Ep.
      assert (js_strict_eq (status r) (js "failed") = false) as ->
        by (rewrite Ep; reflexivity).
      cbn [length]. split; [lia|].
      rewrite <- IHeq. split; [intros; split; [by left|lia]|intros [_ ?]; lia].
    + apply js_strict_eq_false in Ep.
      destruct (js_strict_eq (status r) (js "failed")) eqn:Ef.
      * apply js_strict_eq_true in Ef.
        cbn [length]. split; [lia|].
        rewrite <- IHeq.
        split; [intros; split; [by right|lia]|intros [_ ?]; lia].
      * apply js_strict_eq_false in Ef.
        split; [lia|]. split; [lia|]. intros [[?|?] _]; done.
Qed.

(** X14.  The summary.  [afterAll] never throws and only prints.  It prints
    the number of recorded results as the total, and as passed and failed
    the numbers of results whose status is "passed" and "failed".  The two
    add up to at most the total, and to the total exactly when no result has
    another status (a test that timed out, or was skipped or interrupted, is
    in the total and in neither count). *)
Theorem summary_counts testResults :
  let passed :=
    length (List.filter (fun r => js_strict_eq (status r) (js "passed"))
              testResults) in
  let failed :=
    length (List.filter (fun r => js_strict_eq (status r) (js "failed"))
              testResults) in
  let total := length testResults in
  (passed + failed <= total)%nat /\
  ((passed + failed = total)%nat <->
   Forall (fun r => status r = js "passed" \/ status r = js "failed")
     testResults) /\
  (forall (env : Env) (h : Trace),
     exists t,
       run (afterAll percentage testResults) env h = (Ok tt, t) /\
       Forall (fun op => is_console op = true) t /\
       OpConsole Log [LF ++ js "Total Tests: " ++ js_of_nat total] ∈ t /\
       OpConsole Log [js "Passed: " ++ js_of_nat passed ++ js " ("
                        ++ percentage passed total ++ js "%)"] ∈ t /\
       OpConsole Log [js "Failed: " ++ js_of_nat failed ++ js " ("
                        ++ percentage failed total ++ js "%)"] ∈ t).
Proof.
  cbv zeta. destruct (summary_counts_le testResults) as [Hle Heq].
  split_and!; [exact Hle|exact Heq|].
  intros env h. eexists. split; [apply run_afterAll|].
  split_and!.
  - rewrite !Forall_app. split_and!; [repeat constructor| |repeat constructor].
    destruct (List.filter (fun r => js_strict_eq (status r) (js "failed")) testResults) as [|r l];
      [constructor|].
    constructor; [done|]. apply Forall_forall.
    intros op [x [<- _]]%in_map_iff. done.
  - apply elem_of_app. left. do 3 apply list_elem_of_further.
    apply list_elem_of_here.
  - apply elem_of_app. left. do 4 apply list_elem_of_further.
    apply list_elem_of_here.
  - apply elem_of_app. left. do 5 apply list_elem_of_further.
    apply list_elem_of_here.
Qed.

Lemma listed_failures_bullets (failures : list (TestResult JsNumber)) :
  listed_failures
    (map (fun r => OpConsole Log [js "  - " ++ testId r]) failures) =
  map testId failures.
Proof.
  induction failures as [|r l IH]; [done|].
  simpl map. rewrite <- IH. reflexivity.
Qed.

Lemma collect_map tests :
  collect tests =
  map (fun x => {| testId := testInfo_title (fst x);
                   status := testInfo_status (fst x);
                   duration := testInfo_duration (fst x);
                   timestamp := snd x |}) tests.
Proof.
  unfold collect.
  induction tests as [|x tests IH] using rev_ind; [done|].
  rewrite foldl_snoc, IH, map_app. reflexivity.
Qed.

Lemma filter_failed_collect tests :
  map testId
    (List.filter (fun r => js_strict_eq (status r) (js "failed"))
       (collect tests)) =
  map (fun x => testInfo_title (fst x))
    (List.filter
       (fun x => js_strict_eq (testInfo_status (fst x)) (js "failed")) tests).
Proof.
  rewrite collect_map.
  induction tests as [|x tests IH]; [done|].
  cbn [map List.filter status].
  destruct (js_strict_eq (testInfo_status (fst x)) (js "failed"));
    cbn [map testId]; by rewrite IH.
Qed.

(** X15.  The failure list.  Under "Failed Tests:" [afterAll] lists the ids
    of the results whose status is "failed", each once, in the order the
    tests ran; the heading is printed exactly when there is such a result.
    With the results collected by [afterEach], the ids listed are the titles
    of the failed tests, and the total is the number of tests that ran. *)
Theorem failures_listed_in_order testResults tests (env : Env) (h : Trace) :
  (listed_failures (snd (run (afterAll percentage testResults) env h)) =
     map testId
       (List.filter (fun r => js_strict_eq (status r) (js "failed"))
          testResults)) /\
  ((OpConsole Log [LF ++ js "Failed Tests:"]
      ∈ snd (run (afterAll percentage testResults) env h)) <->
   Exists (fun r => status r = js "failed") testResults) /\
  (listed_failures (snd (run (afterAll percentage (collect tests)) env h)) =
     map (fun x => testInfo_title (fst x))
       (List.filter
          (fun x => js_strict_eq (testInfo_status (fst x)) (js "failed"))
          tests)) /\
  length (collect tests) = length tests.
Proof.
  assert (forall rs : list (TestResult JsNumber),
            listed_failures (snd (run (afterAll percentage rs) env h)) =
            map testId
              (List.filter (fun r => js_strict_eq (status r) (js "failed")) rs))
    as Hlist.
  { intros rs. rewrite run_afterAll. cbn [snd].
    unfold listed_failures at 1. rewrite !omap_app.
    destruct (List.filter (fun r => js_strict_eq (status r) (js "failed")) rs) as [|r l] eqn:F;
      [reflexivity|].
    change (omap listed_failure
              (OpConsole Log [LF ++ js "Failed Tests:"]
                 :: map (fun r => OpConsole Log [js "  - " ++ testId r]) (r :: l)))
      with (listed_failures
              (map (fun r => OpConsole Log [js "  - " ++ testId r]) (r :: l))).
    rewrite listed_failures_bullets.
    cbn. by rewrite app_nil_r. }
  split_and!.
  - apply Hlist.
  - rewrite run_afterAll. cbn [snd].
    rewrite !elem_of_app.
    assert (List.filter (fun r => js_strict_eq (status r) (js "failed"))
              testResults <> [] <->
            Exists (fun r => status r = js "failed") testResults) as <-.
    { rewrite Exists_exists. split.
      - destruct (List.filter (fun r => js_strict_eq (status r) (js "failed")) testResults)
          as [|r l] eqn:F; [done|].
        intros _. exists r.
        assert (In r (List.filter
                        (fun r => js_strict_eq (status r) (js "failed"))
                        testResults)) as Hin by (rewrite F; by left).
        apply List.filter_In in Hin as [Hin Hs].
        split; [exact Hin|by apply js_strict_eq_true].
      - intros (r & Hin & Hs%js_strict_eq_true) F.
        assert (In r (List.filter
                        (fun r => js_strict_eq (status r) (js "failed"))
                        testResults)) as Hin'
          by (apply List.filter_In; done).
        by rewrite F in Hin'. }
    destruct (List.filter (fun r => js_strict_eq (status r) (js "failed")) testResults) as [|r l].
    + split; [|done]. intros [H|[H|H]].
      * repeat (apply elem_of_cons in H as [H|H]; [discriminate|]).
        by apply elem_of_nil in H.
      * by apply elem_of_nil in H.
      * apply list_elem_of_singleton in H. discriminate.
    + split; [done|]. intros _. right. left. apply list_elem_of_here.
  - rewrite Hlist. apply filter_failed_collect.
  - by rewrite collect_map, length_map.
Qed.

End ReporterProofs.

(** ** The UI scenario: when it throws *)

Lemma typing_iteration_threw (c : N) (i : nat) (st : MonitorState)
    (env : Env) (h : Trace) :
  match run (typing_iteration c i st) env h with
  | (Ok _, _) => True
  | (Throw, t) => threw_at_action env h t
  end.
Proof.
  unfold typing_iteration.
  rewrite run_action_bind.
  destruct (env_action env h (OpType _ _ _)) as [[]|] eqn:E1.
  2:{ by apply threw_at_action_here. }
  rewrite run_action_bind.
  destruct (env_action _ _ (OpWaitForTimeout _)) as [[]|] eqn:E2.
  2:{ apply (threw_at_action_shift env h [_] [_]).
      by apply threw_at_action_here. }
  rewrite run_bind.
  match goal with
  | |- context [run getSinhalaOutput ?e ?hh] =>
      destruct (getSinhalaOutput_returns e hh) as (cur & t & ->)
  end.
  by destruct (negb _ && _).
Qed.

Lemma typing_loop_threw (chars : jsstring) (i : nat) (st : MonitorState)
    (env : Env) (h : Trace) :
  match run (typing_loop chars i st) env h with
  | (Ok _, _) => True
  | (Throw, t) => threw_at_action env h t
  end.
Proof.
  revert i st h. induction chars as [|c rest IH]; intros i st h; [done|].
  rewrite run_typing_loop_cons.
  pose proof (typing_iteration_threw c i st env h) as T.
  destruct (run (typing_iteration c i st) env h) as [[r|] t1]; [|exact T].
  specialize (IH (S i) (fst r) (h ++ t1)).
  destruct (run (typing_loop rest (S i) (fst r)) env (h ++ t1))
    as [[st'|] t2]; [done|].
  by apply threw_at_action_shift.
Qed.

(** X16.  The UI scenario throws only when a page action rejects (the
    navigation, the clearing of the field, a key, a wait, the screenshot),
    and that action is then its last call; what the page shows never makes
    it throw.  When it completes it has printed exactly one status line.  On
    a page whose actions all resolve it always completes. *)
Theorem Pos_UI_0001_throws_only_on_rejection (env : Env) (h : Trace) :
  match run Pos_UI_0001 env h with
  | (Ok _, t) => exists passed, verdict_passed t = Some passed
  | (Throw, t) => threw_at_action env h t
  end /\
  ((forall h' op, env_action env h' op = Ok tt) ->
   exists t, run Pos_UI_0001 env h = (Ok tt, t)).
Proof.
  assert (match run Pos_UI_0001 env h with
          | (Ok _, t) => exists passed, verdict_passed t = Some passed
          | (Throw, t) => threw_at_action env h t
          end) as Hrun.
  { pose proof (Pos_UI_0001_status env h) as S.
    destruct (run Pos_UI_0001 env h) as [[[]|] t] eqn:E.
    { destruct S as (st & t1 & finalOutput & t2 & _ & _ & V). eauto. }
    clear S. revert E.
    unfold Pos_UI_0001, waitForTranslation.
    rewrite run_action_bind.
    destruct (env_action env h (OpGoto _)) as [[]|] eqn:E1.
    2:{ intros [= <-]. by apply threw_at_action_here. }
    rewrite run_console_bind, run_action_bind.
    destruct (env_action _ _ (OpClear _)) as [[]|] eqn:E2.
    2:{ intros [= <-].
        apply (threw_at_action_shift env h [_; _] [_]).
        rewrite <- !app_assoc in E2. by apply threw_at_action_here. }
    rewrite run_action_bind.
    destruct (env_action _ _ (OpWaitForTimeout 500)) as [[]|] eqn:E3.
    2:{ intros [= <-].
        apply (threw_at_action_shift env h [_; _; _] [_]).
        rewrite <- !app_assoc in E3. by apply threw_at_action_here. }
    rewrite !run_console_bind, run_bind.
    repeat rewrite <- (app_assoc h). cbn [app].
    fold monitor_init. fold Pos_UI_0001_prelude.
    pose proof (typing_loop_threw Pos_UI_0001_testInput 0 monitor_init env
                  (h ++ Pos_UI_0001_prelude)) as L.
    destruct (run (typing_loop Pos_UI_0001_testInput 0 monitor_init) env
                (h ++ Pos_UI_0001_prelude)) as [[st|] t1].
    2:{ intros [= <-].
        by apply (threw_at_action_shift env h Pos_UI_0001_prelude). }
    clear L.
    rewrite run_action_bind.
    destruct (env_action _ _ (OpWaitForTimeout 2000)) as [[]|] eqn:E4.
    2:{ intros [= <-].
        apply (threw_at_action_shift env h Pos_UI_0001_prelude).
        exists t1, (OpWaitForTimeout 2000). by rewrite <- E4. }
    rewrite run_bind.
    match goal with
    | |- context [run getSinhalaOutput ?e ?hh] =>
        destruct (getSinhalaOutput_returns e hh) as (finalOutput & t2 & ->)
    end.
    rewrite run_action_bind.
    destruct (env_action _ _ (OpScreenshot _ _)) as [[]|] eqn:E5.
    2:{ intros [= <-].
        apply (threw_at_action_shift env h Pos_UI_0001_prelude).
        exists (t1 ++ OpWaitForTimeout 2000 :: t2),
          (OpScreenshot (js "test-results/Pos_UI_0001_final.png") true).
        split; [by rewrite <- app_assoc|].
        rewrite <- E5. f_equal.
        rewrite <- !app_assoc. reflexivity. }
    rewrite run_bind.
    match goal with
    | |- context [run (Pos_UI_0001_results ?a ?b ?c) ?e ?hh] =>
        destruct (Pos_UI_0001_results_status a c b e hh) as [V1 V2];
        destruct (run (Pos_UI_0001_results a b c) e hh) as [rv tv] eqn:Ev
    end.
    simpl in V1. subst rv.
    unfold run at 1, action.
    destruct (env_action _ _ (OpWaitForTimeout 3000)) as [[]|] eqn:E6;
      [discriminate|].
    intros [= <-].
    apply (threw_at_action_shift env h Pos_UI_0001_prelude).
    exists (t1 ++ OpWaitForTimeout 2000 :: t2
              ++ OpScreenshot (js "test-results/Pos_UI_0001_final.png") true
              :: tv), (OpWaitForTimeout 3000).
    split.
    { repeat (rewrite <- app_assoc || rewrite <- app_comm_cons). reflexivity. }
    rewrite <- E6. f_equal.
    repeat (rewrite <- app_assoc || rewrite <- app_comm_cons). reflexivity. }
  split; [exact Hrun|].
  intros Hall.
  destruct (run Pos_UI_0001 env h) as [[[]|] t]; [eauto|].
  destruct Hrun as (before & op & _ & Hop).
  rewrite Hall in Hop. discriminate.
Qed.

Lemma Pos_UI_0001_throws_only_on_rejection_witness :
  exists t, run Pos_UI_0001 (env_static [] [] (Some [])) [] = (Ok tt, t).
Proof.
  apply (proj2 (Pos_UI_0001_throws_only_on_rejection
                  (env_static [] [] (Some [])) [])).
  reflexivity.
Defined.

(** ** The suite *)

(** Past tiers 1 and 2 the extractor returns only accepted code units,
    whatever the body read gives. *)
Lemma fallthrough_result_accepted (env : Env) (h : Trace)
    (r1 r2 : result (option jsstring)) (t1 t2 : Trace) :
  run tier1 env h = (r1, t1) -> finds_nothing r1 ->
  run tier2 env (h ++ t1) = (r2, t2) -> finds_nothing r2 ->
  exists s,
    run getSinhalaOutput env h = (Ok s, t1 ++ t2 ++ [tier3_call]) /\
    Forall (fun c => class_accepts sinhala_space_class c = true) s.
Proof.
  intros E1 N1%found_nothing E2 N2%found_nothing.
  rewrite getSinhalaOutput_chain, E1, N1, E2, N2, run_tier3.
  destruct (env_textContent env ((h ++ t1) ++ t2) body_loc) as [[body|]|];
    [|by exists []|by exists []].
  destruct (js_match sinhala_space_regex body) as [m0|] eqn:Hm; simpl found;
    [|by exists []].
  apply js_match_stretch in Hm as [_ Hacc].
  destruct (js_trim_stretch m0) as (a & b & Hm0).
  exists (js_trim m0). split; [done|].
  rewrite Hm0 in Hacc. by apply Forall_stretch in Hacc.
Qed.

(** The ids of the three cases whose expected output is made of Sinhala and
    white space code units only. *)
Lemma suite_outside_the_class :
  Forall (fun tc =>
            tc_testId tc ∈ sinhala_only_cases \/
            existsb (fun c => negb (class_accepts sinhala_space_class c))
              (tc_expectedOutput tc) = true)
    suite.
Proof.
  assert (forallb (fun tc =>
                     bool_decide (tc_testId tc ∈ sinhala_only_cases)
                     || existsb (fun c => negb (class_accepts sinhala_space_class c))
                          (tc_expectedOutput tc))
            suite = true) as H by (vm_compute; reflexivity).
  rewrite forallb_forall in H. apply Forall_forall. intros tc Hin.
  specialize (H tc Hin). apply orb_true_iff in H as [H|H]; [left|by right].
  by apply bool_decide_eq_true in H.
Qed.

(** X17.  The suite and tier 3.  For every case of the suite other than
    Pos_Fun_0013, Pos_Fun_0014 and Pos_Fun_0015, the expected output
    contains a code unit that is neither Sinhala nor white space.  So
    whenever tiers 1 and 2 find nothing, the extracted text differs from the
    expected output of such a case, whatever the body of the page holds. *)
Theorem suite_expectations_beyond_tier3 (tc : TestCase) (env : Env) (h : Trace)
    (r1 r2 : result (option jsstring)) (t1 t2 : Trace) :
  tc ∈ suite ->
  tc_testId tc ∉ sinhala_only_cases ->
  run tier1 env h = (r1, t1) -> finds_nothing r1 ->
  run tier2 env (h ++ t1) = (r2, t2) -> finds_nothing r2 ->
  exists s,
    run getSinhalaOutput env h = (Ok s, t1 ++ t2 ++ [tier3_call]) /\
    s <> tc_expectedOutput tc.
Proof.
  intros Hin Hid E1 N1 E2 N2.
  destruct (fallthrough_result_accepted env h r1 r2 t1 t2 E1 N1 E2 N2)
    as (s & E & Hacc).
  exists s. split; [exact E|]. intros ->.
  pose proof suite_outside_the_class as Hsuite.
  rewrite Forall_forall in Hsuite.
  destruct (Hsuite tc) as [Hex|Hex]; [by apply list_elem_of_In|done|].
  apply existsb_exists in Hex as (c & Hc & Hout).
  rewrite Forall_forall in Hacc. rewrite (Hacc c Hc) in Hout. discriminate.
Qed.

Lemma suite_expectations_beyond_tier3_witness :
  exists s,
    run getSinhalaOutput
        (env_static [] [js "in"] (Some (js "Output:" ++ Pos_Fun_0001_expected)))
        [] = (Ok s, [OpAll sel1] ++ [tier2_call] ++ [tier3_call]) /\
    s <> tc_expectedOutput Pos_Fun_0001_case.
Proof.
  apply (suite_expectations_beyond_tier3 Pos_Fun_0001_case
           (env_static [] [js "in"] (Some (js "Output:" ++ Pos_Fun_0001_expected)))
           [] (Ok None) (Ok None) [OpAll sel1] [tier2_call]).
  - apply list_elem_of_here.
  - intros H.
    repeat (apply elem_of_cons in H as [H|H]; [discriminate H|]).
    by apply elem_of_nil in H.
  - reflexivity.
  - left. reflexivity.
  - reflexivity.
  - left. reflexivity.
Defined.

(** X18.  The screenshots of the suite.  No id of the suite contains a colon
    or a slash, so the replacement leaves each unchanged; no two cases save
    their screenshot to the same file, and none saves it to the file of the
    UI scenario. *)
Theorem suite_screenshots_distinct :
  Forall (fun tc =>
            js_replace_class path_separators (js "_") (tc_testId tc)
              = tc_testId tc) suite /\
  NoDup (map (fun tc => screenshot_path (tc_testId tc)) suite) /\
  (js "test-results/Pos_UI_0001_final.png"
     ∉ map (fun tc => screenshot_path (tc_testId tc)) suite) /\
  test_body Pos_Fun_0001_case = Pos_Fun_0001.
Proof.
  split_and!.
  - assert (forallb (fun tc =>
                       bool_decide
                         (js_replace_class path_separators (js "_") (tc_testId tc)
                            = tc_testId tc)) suite = true) as H
      by (vm_compute; reflexivity).
    rewrite forallb_forall in H. apply Forall_forall. intros tc Hin.
    specialize (H tc Hin). by apply bool_decide_eq_true in H.
  - apply (bool_decide_unpack
             (NoDup (map (fun tc => screenshot_path (tc_testId tc)) suite))).
    vm_compute. exact I.
  - apply (bool_decide_unpack
             (js "test-results/Pos_UI_0001_final.png"
                ∉ map (fun tc => screenshot_path (tc_testId tc)) suite)).
    vm_compute. exact I.
  - reflexivity.
Qed.

(** ** The extractor and translateText, as stated *)

(** X2.  Whatever the page, the text [getSinhalaOutput] returns is trimmed:
    trimming it again changes nothing, and neither its first nor its last
    code unit is white space. *)
Theorem getSinhalaOutput_trimmed (env : Env) (h : Trace) :
  exists s t,
    run getSinhalaOutput env h = (Ok s, t) /\
    js_trim s = s /\
    (forall c, head s = Some c -> is_js_whitespace c = false) /\
    (forall c, head (rev s) = Some c -> is_js_whitespace c = false).
Proof. apply extractor_result_trimmed. Qed.

(** X3.  The extractor only reads the page.  Every call of a run of
    [getSinhalaOutput] is a query ([all], [textContent] or [inputValue]);
    the first is the text locator with the Sinhala pattern; there are at
    most five; no key is sent and nothing is printed. *)
Theorem getSinhalaOutput_reads_only (env : Env) (h : Trace) :
  Forall (fun op => is_query op = true) (snd (run getSinhalaOutput env h)) /\
  head (snd (run getSinhalaOutput env h)) = Some (OpAll (SelText sinhala_regex)) /\
  (length (snd (run getSinhalaOutput env h)) <= 5)%nat /\
  keys_sent (snd (run getSinhalaOutput env h)) = [] /\
  status_lines (snd (run getSinhalaOutput env h)) = [].
Proof. apply extractor_trace_queries. Qed.

Lemma keys_sent_queries (q : Trace) :
  Forall (fun op => is_query op = true) q -> keys_sent q = [].
Proof.
  induction 1 as [|op q Hop _ IH]; [done|].
  destruct op; try discriminate; exact IH.
Qed.

(** X5.  [translateText] clears the field, waits, fills it with the input
    in one call and waits again before it reads anything: when it returns,
    its trace is these four actions followed by the queries of the
    extractor, and the text it returns is the extractor's, trimmed.  It
    throws only when one of the four actions rejects; it then stops at that
    action, so a rejected [clear] means nothing is filled and nothing is
    read.  It never sends a key. *)
Theorem translateText_steps (input : jsstring) (env : Env) (h : Trace) :
  match run (translateText input) env h with
  | (Ok s, t) =>
      exists q,
        t = translate_actions input ++ q /\
        run getSinhalaOutput env (h ++ translate_actions input) = (Ok s, q) /\
        Forall (fun op => is_query op = true) q /\
        js_trim s = s /\
        keys_sent t = []
  | (Throw, t) =>
      threw_at_action env h t /\
      t `prefix_of` translate_actions input /\
      keys_sent t = []
  end.
Proof.
  pose proof (translateText_run input env h) as R.
  destruct (run (translateText input) env h) as [[s|] t].
  - destruct R as (q & -> & E & Hq & Htrim).
    exists q. split_and!; try done.
    by rewrite keys_sent_app, (keys_sent_queries q Hq).
  - destruct R as (Hthrew & Hpre). split_and!; try done.
    destruct Hpre as [k Hk].
    assert (keys_sent (t ++ k) = []) as Hkeys by (by rewrite <- Hk).
    rewrite keys_sent_app in Hkeys. by apply app_eq_nil in Hkeys as [? _].
Qed.
